(** * Stock ledger of [inventory_system.py]

    A shallow embedding of the module-level ledger [stock_data] and of the
    functions [add_item], [remove_item], [get_qty], [load_data], [save_data]
    and [check_low_items], followed by the properties of the ledger.

    Python objects are the values of [pyval]: [None], booleans, integers,
    strings, lists and dictionaries with string keys (the only keys the
    module ever stores: [add_item] checks [isinstance(item, str)] and a JSON
    object has string keys).  A dictionary keeps its insertion order, so it
    is an association list.  Objects of other kinds (floats, complex numbers,
    sets, tuples) are not represented: a statement about every object is a
    statement about the objects of these six kinds.

    A function of the module is a computation over a [world]: the object
    bound to [stock_data], the files it can open and the records handed to
    [logging].  A computation either returns or raises, and in both cases it
    hands back the world it leaves behind.  [print_data] and [main] run in a
    process that also has a console, the strings [print] has written. *)

From stdpp Require Import gmap strings list fin_maps.
From Stdlib Require Import ZArith Ascii DecimalPos.

Set Warnings "-register-all".

Open Scope string_scope.
Open Scope Z_scope.

(** ** Python objects *)

Inductive pyval : Type :=
| VNone
| VBool (b : bool)
| VInt (n : Z)
| VStr (s : string)
| VList (l : list pyval)
| VDict (d : list (string * pyval)).

Inductive exn : Type :=
| TypeError
| AttributeError
| IndexError
| KeyError
| FileNotFoundError
| PermissionError
| UnicodeDecodeError
| JSONDecodeError
| ValueError.

(** [except OSError] catches [FileNotFoundError] and [PermissionError];
    [PermissionError] stands for every [OSError] that is not a
    [FileNotFoundError]. *)
Definition is_OSError (e : exn) : bool :=
  match e with
  | FileNotFoundError | PermissionError => true
  | _ => false
  end.

(** The result of evaluating an expression: a value or a raised exception. *)
Definition res (A : Type) : Type := exn + A.

Definition res_bind {A B : Type} (r : res A) (k : A -> res B) : res B :=
  match r with
  | inl e => inl e
  | inr a => k a
  end.

Module Py.

(** [isinstance(v, str)] and [isinstance(v, int)]; [bool] is a subclass of
    [int]. *)
Definition isinstance_str (v : pyval) : bool :=
  match v with VStr _ => true | _ => false end.

Definition isinstance_int (v : pyval) : bool :=
  match v with VInt _ | VBool _ => true | _ => false end.

(** The integer a number object stands for. *)
Definition as_int (v : pyval) : option Z :=
  match v with
  | VInt n => Some n
  | VBool b => Some (if b then 1 else 0)
  | _ => None
  end.

Definition is_none (v : pyval) : bool :=
  match v with VNone => true | _ => false end.

(** Truth value of an object, as [not v] tests it. *)
Definition truth (v : pyval) : bool :=
  match v with
  | VNone => false
  | VBool b => b
  | VInt n => negb (n =? 0)
  | VStr s => negb (String.eqb s "")
  | VList l => negb (Nat.eqb (length l) 0)
  | VDict d => negb (Nat.eqb (length d) 0)
  end.

Definition hashable (v : pyval) : bool :=
  match v with VList _ | VDict _ => false | _ => true end.

(** *** Dictionaries with string keys, in insertion order *)

Fixpoint dict_lookup (d : list (string * pyval)) (k : string) : option pyval :=
  match d with
  | [] => None
  | (k', v) :: d' => if String.eqb k' k then Some v else dict_lookup d' k
  end.

(** [d[k] = v]: an existing key keeps its place, a new one goes last. *)
Fixpoint dict_set (d : list (string * pyval)) (k : string) (v : pyval)
  : list (string * pyval) :=
  match d with
  | [] => [(k, v)]
  | (k', v') :: d' =>
      if String.eqb k' k then (k', v) :: d' else (k', v') :: dict_set d' k v
  end.

(** [del d[k]] *)
Fixpoint dict_del (d : list (string * pyval)) (k : string)
  : list (string * pyval) :=
  match d with
  | [] => []
  | (k', v') :: d' =>
      if String.eqb k' k then dict_del d' k else (k', v') :: dict_del d' k
  end.

Definition dict_keys (d : list (string * pyval)) : list string := d.*1.

(** *** Sequences: index normalisation ([l[-1]] is the last element) *)

Definition norm_index (len : nat) (i : Z) : option nat :=
  let j := if i <? 0 then i + Z.of_nat len else i in
  if (0 <=? j) && (j <? Z.of_nat len) then Some (Z.to_nat j) else None.

Definition str_index (s : string) (i : Z) : option string :=
  match norm_index (String.length s) i with
  | Some n =>
      match String.get n s with
      | Some c => Some (String c EmptyString)
      | None => None
      end
  | None => None
  end.

(** *** Arithmetic and comparison *)

(** [a + b] *)
Definition add (a b : pyval) : res pyval :=
  match a, b with
  | VStr s, VStr t => inr (VStr (s +:+ t))
  | VList l, VList m => inr (VList (l ++ m))
  | _, _ =>
      match as_int a, as_int b with
      | Some x, Some y => inr (VInt (x + y))
      | _, _ => inl TypeError
      end
  end.

(** [a - b] *)
Definition sub (a b : pyval) : res pyval :=
  match as_int a, as_int b with
  | Some x, Some y => inr (VInt (x - y))
  | _, _ => inl TypeError
  end.

(** [a == b]; never raises on these objects. *)
Fixpoint eq (a b : pyval) {struct a} : bool :=
  match a, b with
  | VNone, VNone => true
  | VStr s, VStr t => String.eqb s t
  | VBool x, VBool y => Bool.eqb x y
  | VBool x, VInt y => (if x then 1 else 0) =? y
  | VInt x, VBool y => x =? (if y then 1 else 0)
  | VInt x, VInt y => x =? y
  | VList l, VList m =>
      (fix go (l m : list pyval) {struct l} : bool :=
         match l, m with
         | [], [] => true
         | x :: l', y :: m' => eq x y && go l' m'
         | _, _ => false
         end) l m
  | VDict d, VDict e =>
      Nat.eqb (length d) (length e) &&
      (fix go (d : list (string * pyval)) {struct d} : bool :=
         match d with
         | [] => true
         | (k, v) :: d' =>
             match dict_lookup e k with
             | Some v' => eq v v' && go d'
             | None => false
             end
         end) d
  | _, _ => false
  end.

Inductive cmpop : Type := Lt | Le.

Definition cmp_int (op : cmpop) (x y : Z) : bool :=
  match op with Lt => x <? y | Le => x <=? y end.

Definition cmp_str (op : cmpop) (s t : string) : bool :=
  match op with Lt => String.ltb s t | Le => String.leb s t end.

(** [a < b] and [a <= b].  Lists compare at the first pair of elements
    that are not equal, and by length when there is none. *)
Fixpoint richcmp (op : cmpop) (a b : pyval) {struct a} : res bool :=
  match a, b with
  | VStr s, VStr t => inr (cmp_str op s t)
  | VList l, VList m =>
      (fix go (l m : list pyval) {struct l} : res bool :=
         match l, m with
         | [], [] => inr (cmp_int op 0 0)
         | [], _ :: _ => inr true
         | _ :: _, [] => inr false
         | x :: l', y :: m' => if eq x y then go l' m' else richcmp op x y
         end) l m
  | _, _ =>
      match as_int a, as_int b with
      | Some x, Some y => inr (cmp_int op x y)
      | _, _ => inl TypeError
      end
  end.

Definition lt : pyval -> pyval -> res bool := richcmp Lt.
Definition le : pyval -> pyval -> res bool := richcmp Le.

(** *** Subscription *)

(** [c[k]] *)
Definition getitem (c k : pyval) : res pyval :=
  match c with
  | VDict d =>
      match k with
      | VStr s =>
          match dict_lookup d s with
          | Some v => inr v
          | None => inl KeyError
          end
      | VList _ | VDict _ => inl TypeError
      | _ => inl KeyError
      end
  | VList l =>
      match as_int k with
      | Some i =>
          match norm_index (length l) i with
          | Some n =>
              match l !! n with
              | Some v => inr v
              | None => inl IndexError
              end
          | None => inl IndexError
          end
      | None => inl TypeError
      end
  | VStr s =>
      match as_int k with
      | Some i =>
          match str_index s i with
          | Some c => inr (VStr c)
          | None => inl IndexError
          end
      | None => inl TypeError
      end
  | _ => inl TypeError
  end.

(** [c[k] -= q]: read [c[k]], subtract, store the difference under the
    same key.  The result is the container after the store. *)
Definition isub_item (c k q : pyval) : res pyval :=
  match c with
  | VDict d =>
      match k with
      | VStr s =>
          match dict_lookup d s with
          | Some v => res_bind (sub v q) (fun r => inr (VDict (dict_set d s r)))
          | None => inl KeyError
          end
      | VList _ | VDict _ => inl TypeError
      | _ => inl KeyError
      end
  | VList l =>
      match as_int k with
      | Some i =>
          match norm_index (length l) i with
          | Some n =>
              match l !! n with
              | Some v => res_bind (sub v q) (fun r => inr (VList (<[n:=r]> l)))
              | None => inl IndexError
              end
          | None => inl IndexError
          end
      | None => inl TypeError
      end
  | VStr s =>
      (* the read may succeed; a string minus anything is a TypeError *)
      res_bind (getitem c k) (fun v => res_bind (sub v q) (fun _ => inl TypeError))
  | _ => inl TypeError
  end.

(** [c[k] = v] for a string key [k]. *)
Definition setitem_str (c : pyval) (k : string) (v : pyval) : res pyval :=
  match c with
  | VDict d => inr (VDict (dict_set d k v))
  | _ => inl TypeError
  end.

(** [del c[k]] *)
Definition delitem (c k : pyval) : res pyval :=
  match c with
  | VDict d =>
      match k with
      | VStr s =>
          match dict_lookup d s with
          | Some _ => inr (VDict (dict_del d s))
          | None => inl KeyError
          end
      | VList _ | VDict _ => inl TypeError
      | _ => inl KeyError
      end
  | VList l =>
      match as_int k with
      | Some i =>
          match norm_index (length l) i with
          | Some n => inr (VList (delete n l))
          | None => inl IndexError
          end
      | None => inl TypeError
      end
  | _ => inl TypeError
  end.

(** [c.get(k, default)]: only a dictionary has the method. *)
Definition get_method (c k default : pyval) : res pyval :=
  match c with
  | VDict d =>
      match k with
      | VStr s =>
          match dict_lookup d s with
          | Some v => inr v
          | None => inr default
          end
      | VList _ | VDict _ => inl TypeError
      | _ => inr default
      end
  | _ => inl AttributeError
  end.

(** [l.append(x)]: only a list has the method. *)
Definition append_method (l x : pyval) : res pyval :=
  match l with
  | VList xs => inr (VList (xs ++ [x]))
  | _ => inl AttributeError
  end.

(** The objects [for item in c] goes through. *)
Definition iter (c : pyval) : res (list pyval) :=
  match c with
  | VDict d => inr (VStr <$> dict_keys d)
  | VList l => inr l
  | VStr s => inr ((fun c => VStr (String c EmptyString)) <$> String.list_ascii_of_string s)
  | _ => inl TypeError
  end.

(** [str(n)] of an integer: its decimal digits, most significant first. *)
Fixpoint uint_chars (u : Decimal.uint) : list ascii :=
  match u with
  | Decimal.Nil => []
  | Decimal.D0 u => "0"%char :: uint_chars u
  | Decimal.D1 u => "1"%char :: uint_chars u
  | Decimal.D2 u => "2"%char :: uint_chars u
  | Decimal.D3 u => "3"%char :: uint_chars u
  | Decimal.D4 u => "4"%char :: uint_chars u
  | Decimal.D5 u => "5"%char :: uint_chars u
  | Decimal.D6 u => "6"%char :: uint_chars u
  | Decimal.D7 u => "7"%char :: uint_chars u
  | Decimal.D8 u => "8"%char :: uint_chars u
  | Decimal.D9 u => "9"%char :: uint_chars u
  end.

Definition int_chars (n : Z) : list ascii :=
  match n with
  | Z0 => ["0"%char]
  | Zpos p => uint_chars (Pos.to_uint p)
  | Zneg p => "-"%char :: uint_chars (Pos.to_uint p)
  end.

Definition str_of_int (n : Z) : string := String.string_of_list_ascii (int_chars n).

(** CPython converts an integer to text only when it has at most 4300
    decimal digits ([sys.int_max_str_digits]); beyond that [str], an
    f-string, [print] and [json.dumps] raise [ValueError]. *)
Definition max_str_digits : nat := 4300.

Definition within_str_limit (n : Z) : bool :=
  (length (int_chars (Z.abs n)) <=? max_str_digits)%nat.

(** The same for the object formatted: a boolean is written as a word. *)
Definition formats (v : pyval) : bool :=
  match v with
  | VInt n => within_str_limit n
  | _ => true
  end.

(** [f"{v}"] of an integer or a boolean: the text CPython writes where it
    writes one, that is for an integer within the limit of
    [within_str_limit]. *)
Definition format_int (v : pyval) : string :=
  match v with
  | VBool true => "True"
  | VBool false => "False"
  | VInt n => str_of_int n
  | _ => ""
  end.

End Py.

(** ** The world of the module *)

Inductive level : Type := INFO | WARNING | ERROR.

(** An argument of a logging call: an object or the caught exception. *)
Inductive logarg : Type :=
| AVal (v : pyval)
| AExn (e : exn).

(** A record handed to [logging]: level, format string and arguments.  The
    root logger is configured at level INFO, so every record is emitted. *)
Record logrecord : Type := LogRecord {
  lr_level : level;
  lr_msg : string;
  lr_args : list logarg
}.

(** What [open] meets at a path.  A path absent from the file table is one
    where a file can be created, unless it has a NUL character: nothing is
    there, and opening it for reading raises [FileNotFoundError].  [Locked]
    is a path at which [open] raises an [OSError] that is no
    [FileNotFoundError]: permission denied, a directory, a path through
    something that is no directory, a name too long. *)
Inductive fnode : Type :=
| Text (content : string)   (* a file holding UTF-8 text *)
| Binary                    (* a file whose bytes are not valid UTF-8 *)
| Locked                    (* opening fails with an OSError, not FileNotFoundError *)
| NoParent.                 (* the directory of the path does not exist *)

(** A path with a NUL character names no file: [open] refuses it with
    [ValueError] before it asks the system, so the file table of a system
    has no entry for such a path. *)
Definition has_nul (path : string) : bool :=
  existsb (Ascii.eqb "000") (String.list_ascii_of_string path).

Record world : Type := World {
  stock_data : pyval;
  files : gmap string fnode;
  records : list logrecord
}.

Definition with_stock (v : pyval) (w : world) : world :=
  {| stock_data := v; files := files w; records := records w |}.

Definition with_file (path : string) (n : fnode) (w : world) : world :=
  {| stock_data := stock_data w; files := <[path := n]> (files w);
     records := records w |}.

Definition with_record (r : logrecord) (w : world) : world :=
  {| stock_data := stock_data w; files := files w;
     records := records w ++ [r] |}.

(** The module is imported: [stock_data = {}], nothing logged yet. *)
Definition initial (fs : gmap string fnode) : world :=
  {| stock_data := VDict []; files := fs; records := [] |}.

Inductive outcome (A : Type) : Type :=
| Return (a : A) (w : world)
| Raise (e : exn) (w : world).
Arguments Return {A} a w.
Arguments Raise {A} e w.

Definition final {A : Type} (o : outcome A) : world :=
  match o with Return _ w => w | Raise _ w => w end.

Definition returns {A : Type} (o : outcome A) : Prop :=
  match o with Return _ _ => True | Raise _ _ => False end.

Definition M (A : Type) : Type := world -> outcome A.

Definition ret {A : Type} (a : A) : M A := fun w => Return a w.

Definition raise {A : Type} (e : exn) : M A := fun w => Raise e w.

Definition bind {A B : Type} (m : M A) (k : A -> M B) : M B :=
  fun w =>
    match m w with
    | Return a w' => k a w'
    | Raise e w' => Raise e w'
    end.

Declare Scope py_scope.
Delimit Scope py_scope with py.
Notation "x <- m ;; k" := (bind m (fun x => k))
  (at level 100, m at next level, right associativity) : py_scope.
Notation "m ;;; k" := (bind m (fun _ => k))
  (at level 100, right associativity) : py_scope.
Open Scope py_scope.

(** Evaluate an expression: its value, or its exception raised. *)
Definition eval {A : Type} (r : res A) : M A :=
  match r with
  | inl e => raise e
  | inr a => ret a
  end.

(** [try: body / except ...: handler]: [handles e] is the handler of the
    first [except] clause that matches [e], if there is one. *)
Definition try_except {A : Type} (body : M A) (handles : exn -> option (M A))
  : M A :=
  fun w =>
    match body w with
    | Return a w' => Return a w'
    | Raise e w' =>
        match handles e with
        | Some h => h w'
        | None => Raise e w'
        end
    end.

Definition read_stock : M pyval := fun w => Return (stock_data w) w.

Definition write_stock (v : pyval) : M unit := fun w => Return tt (with_stock v w).

Definition logging_log (l : level) (msg : string) (args : list logarg) : M unit :=
  fun w => Return tt (with_record (LogRecord l msg args) w).

Definition logging_info := logging_log INFO.
Definition logging_warning := logging_log WARNING.
Definition logging_error := logging_log ERROR.

(** [with open(file, "r", encoding="utf-8") as f: f.read()] *)
Definition open_read (file : string) : M string :=
  fun w =>
    match files w !! file with
    | Some (Text s) => Return s w
    | Some Binary => Raise UnicodeDecodeError w
    | Some Locked => Raise PermissionError w
    | Some NoParent => Raise FileNotFoundError w
    | None =>
        if has_nul file then Raise ValueError w else Raise FileNotFoundError w
    end.

(** [with open(file, "w", encoding="utf-8") as f: f.write(s)].  The text
    [s] is computed after the file is opened; the computation is total here,
    and the step from the open to the close is one (no failure of the
    device in between). *)
Definition open_write (file : string) (s : string) : M unit :=
  fun w =>
    match files w !! file with
    | Some Locked => Raise PermissionError w
    | Some NoParent => Raise FileNotFoundError w
    | Some (Text _) | Some Binary => Return tt (with_file file (Text s) w)
    | None =>
        if has_nul file then Raise ValueError w
        else Return tt (with_file file (Text s) w)
    end.

(** ** The functions of the module *)

(** [add_item(item, qty, logs=None)].  [now] is [str(datetime.now())] at the
    call.  The computation returns the list [logs] is bound to when the
    function leaves: the caller's list after the call, or the fresh list
    made for [logs=None]. *)
Definition add_item (now : string) (item qty logs : pyval) : M pyval :=
  let logs := if Py.is_none logs then VList [] else logs in
  match item, Py.isinstance_int qty with
  | VStr name, true =>
      if negb (Py.truth item) then ret logs
      else
        sd <- read_stock ;;
        old <- eval (Py.get_method sd item (VInt 0)) ;;
        new <- eval (Py.add old qty) ;;
        sd' <- eval (Py.setitem_str sd name new) ;;
        write_stock sd' ;;;
        let log_msg :=
          VStr (now +:+ ": Added " +:+ Py.format_int qty +:+ " of " +:+ name) in
        eval (Py.append_method logs log_msg)
  | _, _ =>
      (* not isinstance(item, str) or not isinstance(qty, int) *)
      logging_warning "Invalid types for item: %s or qty: %s. Skipping."
        [AVal item; AVal qty] ;;;
      ret logs
  end.

(** [remove_item(item, qty)] *)
Definition remove_item (item qty : pyval) : M unit :=
  try_except
    (sd <- read_stock ;;
     sd' <- eval (Py.isub_item sd item qty) ;;
     write_stock sd' ;;;
     v <- eval (Py.getitem sd' item) ;;
     nonpos <- eval (Py.le v (VInt 0)) ;;
     if nonpos : bool then
       sd'' <- eval (Py.delitem sd' item) ;;
       write_stock sd'' ;;;
       logging_info "Item '%s' stock reached zero and removed." [AVal item]
     else ret tt)
    (fun e =>
       match e with
       | KeyError =>
           Some (logging_warning "Attempted to remove non-existent item: %s."
                   [AVal item])
       | _ => None
       end).

(** [get_qty(item)] *)
Definition get_qty (item : pyval) : M pyval :=
  sd <- read_stock ;;
  eval (Py.get_method sd item (VInt 0)).

(** The loop of [check_low_items] over the remaining items, [result] being
    the list built so far. *)
Fixpoint low_items_loop (sd threshold : pyval) (items : list pyval)
  (result : list pyval) : res (list pyval) :=
  match items with
  | [] => inr result
  | item :: rest =>
      res_bind (Py.getitem sd item) (fun v =>
      res_bind (Py.lt v threshold) (fun low =>
      low_items_loop sd threshold rest
        (if low : bool then result ++ [item] else result)))
  end.

(** [check_low_items(threshold=5)] *)
Definition check_low_items (threshold : pyval) : M (list pyval) :=
  sd <- read_stock ;;
  items <- eval (Py.iter sd) ;;
  eval (low_items_loop sd threshold items []).

Definition default_threshold : pyval := VInt 5.
Definition default_file : string := "inventory.json".

Section Persistence.

(** The [json] module is Python's, not the repository's: [json_loads s] is
    the object [json.loads(s)] returns, or [None] when it raises
    [JSONDecodeError]; [json_dumps v] is [json.dumps(v, indent=4)].  The
    parameters speak of the texts and objects on which the module does one
    of these: a text nested so deep that [json.loads] raises
    [RecursionError], and an integer of more than 4300 digits, which both
    functions refuse with [ValueError], are not among them. *)
Variable json_loads : string -> option pyval.
Variable json_dumps : pyval -> string.

(** [load_data(file="inventory.json")] *)
Definition load_data (file : string) : M unit :=
  try_except
    (text <- open_read file ;;
     v <- (match json_loads text with
           | Some v => ret v
           | None => raise JSONDecodeError
           end) ;;
     write_stock v ;;;
     logging_info "Data loaded successfully." [])
    (fun e =>
       match e with
       | FileNotFoundError =>
           Some (logging_warning "File %s not found. Starting with empty stock."
                   [AVal (VStr file)])
       | JSONDecodeError =>
           Some (logging_error
                   "Error decoding JSON from file. Content may be corrupted." [])
       | _ => None
       end).

(** [save_data(file="inventory.json")] *)
Definition save_data (file : string) : M unit :=
  try_except
    (sd <- read_stock ;;
     open_write file (json_dumps sd) ;;;
     logging_info "Data saved successfully." [])
    (fun e =>
       if is_OSError e
       then Some (logging_error "Failed to save data: %s" [AExn e])
       else None).

(** Opening the path for reading raises [FileNotFoundError]. *)
Definition missing_file (w : world) (file : string) : Prop :=
  (files w !! file = None /\ has_nul file = false)
  \/ files w !! file = Some NoParent.

(** The path names a text file and [json.loads] rejects its text with
    [JSONDecodeError]. *)
Definition rejected_text (w : world) (file : string) : Prop :=
  exists text, files w !! file = Some (Text text) /\ json_loads text = None.

End Persistence.


(** Opening the path for writing raises an [OSError]. *)
Definition unopenable (w : world) (file : string) : Prop :=
  files w !! file = Some Locked \/ files w !! file = Some NoParent.

(** ** A JSON codec for the objects of [pyval]

    An executable codec with the interface [load_data] and [save_data] take
    as parameters.  It writes what [json.dumps(v, indent=4)] writes and reads
    JSON text whose numbers are integers and whose characters have a code
    below 256; on any other text [loads] answers [None]. *)

Module RefJson.

Definition code (c : ascii) : N := N_of_ascii c.

Definition is_ws (c : ascii) : bool :=
  Ascii.eqb c " " || Ascii.eqb c "010" || Ascii.eqb c "013" || Ascii.eqb c "009".

Fixpoint skip_ws (cs : list ascii) : list ascii :=
  match cs with
  | c :: r => if is_ws c then skip_ws r else cs
  | [] => []
  end.

(** *** Writing *)

Definition hex_digit (n : N) : ascii :=
  if (n <? 10)%N then ascii_of_N (48 + n) else ascii_of_N (87 + n).

Definition escape_char (c : ascii) : list ascii :=
  if Ascii.eqb c "034" then ["092"; "034"]%char
  else if Ascii.eqb c "092" then ["092"; "092"]%char
  else if Ascii.eqb c "010" then ["092"; "n"]%char
  else if Ascii.eqb c "013" then ["092"; "r"]%char
  else if Ascii.eqb c "009" then ["092"; "t"]%char
  else if Ascii.eqb c "008" then ["092"; "b"]%char
  else if Ascii.eqb c "012" then ["092"; "f"]%char
  else if (32 <=? code c)%N && (code c <=? 126)%N then [c]
  else ["092"; "u"; "0"; "0"; hex_digit (code c / 16); hex_digit (code c mod 16)]%char.

Definition quote (s : string) : list ascii :=
  "034"%char :: flat_map escape_char (String.list_ascii_of_string s) ++ ["034"%char].

Definition newline_indent (level : nat) : list ascii :=
  "010"%char :: repeat " "%char (4 * level).

Definition chars (s : string) : list ascii := String.list_ascii_of_string s.

Fixpoint render (level : nat) (v : pyval) {struct v} : list ascii :=
  match v with
  | VNone => chars "null"
  | VBool true => chars "true"
  | VBool false => chars "false"
  | VInt n => Py.int_chars n
  | VStr s => quote s
  | VList [] => chars "[]"
  | VList (x :: l) =>
      "["%char :: newline_indent (S level) ++ render (S level) x ++
      (fix go (l : list pyval) : list ascii :=
         match l with
         | [] => []
         | y :: l' =>
             ","%char :: newline_indent (S level) ++ render (S level) y ++ go l'
         end) l ++
      newline_indent level ++ ["]"%char]
  | VDict [] => chars "{}"
  | VDict ((k, x) :: d) =>
      "{"%char :: newline_indent (S level) ++
      quote k ++ chars ": " ++ render (S level) x ++
      (fix go (d : list (string * pyval)) : list ascii :=
         match d with
         | [] => []
         | (k', y) :: d' =>
             ","%char :: newline_indent (S level) ++
             quote k' ++ chars ": " ++ render (S level) y ++ go d'
         end) d ++
      newline_indent level ++ ["}"%char]
  end.

Definition dumps (v : pyval) : string := String.string_of_list_ascii (render 0 v).

(** *** Reading *)

Definition hex_val (c : ascii) : option N :=
  let n := code c in
  if (48 <=? n)%N && (n <=? 57)%N then Some (n - 48)%N
  else if (97 <=? n)%N && (n <=? 102)%N then Some (n - 87)%N
  else if (65 <=? n)%N && (n <=? 70)%N then Some (n - 55)%N
  else None.

(** The character [\uh1h2h3h4] names, when its code is below 256. *)
Definition hex4 (h1 h2 h3 h4 : ascii) : option ascii :=
  match hex_val h1, hex_val h2, hex_val h3, hex_val h4 with
  | Some a, Some b, Some c, Some d =>
      if (a =? 0)%N && (b =? 0)%N then Some (ascii_of_N (16 * c + d)) else None
  | _, _, _, _ => None
  end.

Definition simple_escape (e : ascii) : option ascii :=
  if Ascii.eqb e "034" then Some "034"%char
  else if Ascii.eqb e "092" then Some "092"%char
  else if Ascii.eqb e "/" then Some "/"%char
  else if Ascii.eqb e "b" then Some "008"%char
  else if Ascii.eqb e "f" then Some "012"%char
  else if Ascii.eqb e "n" then Some "010"%char
  else if Ascii.eqb e "r" then Some "013"%char
  else if Ascii.eqb e "t" then Some "009"%char
  else None.

Definition push (c : ascii) (r : option (list ascii * list ascii))
  : option (list ascii * list ascii) :=
  match r with
  | Some (s, rest) => Some (c :: s, rest)
  | None => None
  end.

(** The characters of a string literal after its opening quote, and the
    text after its closing quote. *)
Fixpoint parse_string_body (cs : list ascii) : option (list ascii * list ascii) :=
  match cs with
  | [] => None
  | c :: r =>
      if Ascii.eqb c "034" then Some ([], r)
      else if Ascii.eqb c "092" then
        match r with
        | [] => None
        | e :: r' =>
            if Ascii.eqb e "u" then
              match r' with
              | h1 :: h2 :: h3 :: h4 :: r'' =>
                  match hex4 h1 h2 h3 h4 with
                  | Some a => push a (parse_string_body r'')
                  | None => None
                  end
              | _ => None
              end
            else
              match simple_escape e with
              | Some a => push a (parse_string_body r')
              | None => None
              end
        end
      else if (code c <? 32)%N then None
      else push c (parse_string_body r)
  end.

Definition digit_of (c : ascii) : option (Decimal.uint -> Decimal.uint) :=
  if Ascii.eqb c "0" then Some Decimal.D0
  else if Ascii.eqb c "1" then Some Decimal.D1
  else if Ascii.eqb c "2" then Some Decimal.D2
  else if Ascii.eqb c "3" then Some Decimal.D3
  else if Ascii.eqb c "4" then Some Decimal.D4
  else if Ascii.eqb c "5" then Some Decimal.D5
  else if Ascii.eqb c "6" then Some Decimal.D6
  else if Ascii.eqb c "7" then Some Decimal.D7
  else if Ascii.eqb c "8" then Some Decimal.D8
  else if Ascii.eqb c "9" then Some Decimal.D9
  else None.

(** The longest run of digits at the head of the text. *)
Fixpoint span_digits (cs : list ascii) : Decimal.uint * list ascii :=
  match cs with
  | [] => (Decimal.Nil, [])
  | c :: r =>
      match digit_of c with
      | Some D => let '(u, r') := span_digits r in (D u, r')
      | None => (Decimal.Nil, cs)
      end
  end.

(** A fraction or an exponent makes the number a float. *)
Definition starts_float (cs : list ascii) : bool :=
  match cs with
  | c :: _ => Ascii.eqb c "." || Ascii.eqb c "e" || Ascii.eqb c "E"
  | [] => false
  end.

Definition parse_natural (cs : list ascii) : option (Z * list ascii) :=
  match cs with
  | [] => None
  | c :: r =>
      if Ascii.eqb c "0" then Some (0, r)
      else
        match digit_of c with
        | Some _ => let '(u, r') := span_digits cs in Some (Z.of_N (Pos.of_uint u), r')
        | None => None
        end
  end.

Definition parse_number (cs : list ascii) : option (pyval * list ascii) :=
  let '(negative, cs') :=
    match cs with
    | c :: r => if Ascii.eqb c "-" then (true, r) else (false, cs)
    | [] => (false, cs)
    end in
  match parse_natural cs' with
  | Some (n, r) =>
      if starts_float r then None
      else Some (VInt (if negative : bool then - n else n), r)
  | None => None
  end.

Fixpoint strip_prefix (p cs : list ascii) : option (list ascii) :=
  match p, cs with
  | [], _ => Some cs
  | a :: p', c :: cs' => if Ascii.eqb a c then strip_prefix p' cs' else None
  | _ :: _, [] => None
  end.

Fixpoint parse_value (fuel : nat) (cs : list ascii) {struct fuel}
  : option (pyval * list ascii) :=
  match fuel with
  | O => None
  | S fuel' =>
      match cs with
      | [] => None
      | c :: r =>
          if Ascii.eqb c "{" then
            match skip_ws r with
            | [] => None
            | c' :: r' =>
                if Ascii.eqb c' "}" then Some (VDict [], r')
                else parse_members fuel' [] (c' :: r')
            end
          else if Ascii.eqb c "[" then
            match skip_ws r with
            | [] => None
            | c' :: r' =>
                if Ascii.eqb c' "]" then Some (VList [], r')
                else parse_elements fuel' [] (c' :: r')
            end
          else if Ascii.eqb c "034" then
            match parse_string_body r with
            | Some (s, r') => Some (VStr (String.string_of_list_ascii s), r')
            | None => None
            end
          else
            match strip_prefix (chars "null") cs with
            | Some r' => Some (VNone, r')
            | None =>
                match strip_prefix (chars "true") cs with
                | Some r' => Some (VBool true, r')
                | None =>
                    match strip_prefix (chars "false") cs with
                    | Some r' => Some (VBool false, r')
                    | None => parse_number cs
                    end
                end
            end
      end
  end

(** The members of an object from its first key on; [acc] holds the
    members read so far.  A key read twice keeps its place and takes the
    later value. *)
with parse_members (fuel : nat) (acc : list (string * pyval)) (cs : list ascii)
  {struct fuel} : option (pyval * list ascii) :=
  match fuel with
  | O => None
  | S fuel' =>
      match cs with
      | [] => None
      | c :: r =>
          if Ascii.eqb c "034" then
            match parse_string_body r with
            | Some (k, r1) =>
                match skip_ws r1 with
                | [] => None
                | c1 :: r2 =>
                    if Ascii.eqb c1 ":" then
                      match parse_value fuel' (skip_ws r2) with
                      | Some (v, r3) =>
                          let acc' :=
                            Py.dict_set acc (String.string_of_list_ascii k) v in
                          match skip_ws r3 with
                          | [] => None
                          | c3 :: r4 =>
                              if Ascii.eqb c3 "," then
                                parse_members fuel' acc' (skip_ws r4)
                              else if Ascii.eqb c3 "}" then Some (VDict acc', r4)
                              else None
                          end
                      | None => None
                      end
                    else None
                end
            | None => None
            end
          else None
      end
  end

(** The elements of an array from its first element on. *)
with parse_elements (fuel : nat) (acc : list pyval) (cs : list ascii)
  {struct fuel} : option (pyval * list ascii) :=
  match fuel with
  | O => None
  | S fuel' =>
      match parse_value fuel' cs with
      | Some (v, r) =>
          match skip_ws r with
          | [] => None
          | c :: r' =>
              if Ascii.eqb c "," then parse_elements fuel' (acc ++ [v]) (skip_ws r')
              else if Ascii.eqb c "]" then Some (VList (acc ++ [v]), r')
              else None
          end
      | None => None
      end
  end.

(** A document is one value between optional whitespace.  Every call of
    the parser consumes a character, so the length of the text bounds the
    calls. *)
Definition loads (s : string) : option pyval :=
  let cs := chars s in
  match parse_value (S (length cs)) (skip_ws cs) with
  | Some (v, r) =>
      match skip_ws r with
      | [] => Some v
      | _ :: _ => None
      end
  | None => None
  end.

(** The members of an object at [level] after its first one, as [render]
    writes them. *)
Fixpoint render_more (level : nat) (d : list (string * pyval)) : list ascii :=
  match d with
  | [] => []
  | (k, y) :: d' =>
      ","%char :: newline_indent (S level) ++
      quote k ++ chars ": " ++ render (S level) y ++ render_more level d'
  end.

(** The text after a number: no digit and no fraction or exponent. *)
Definition number_end (rest : list ascii) : Prop :=
  match rest with
  | [] => True
  | c :: _ => digit_of c = None /\ starts_float rest = false
  end.

(** A digit run with no leading zero. *)
Definition leading_nonzero (u : Decimal.uint) : Prop :=
  match u with
  | Decimal.Nil | Decimal.D0 _ => False
  | _ => True
  end.

(** A number starts with a digit or a minus sign. *)
Definition is_number_start (c : ascii) : bool :=
  Ascii.eqb c "-" || bool_decide (is_Some (digit_of c)).

End RefJson.

(** ** The ledger of the data model *)

(** A quantity above zero. *)
Definition positive_quantity (v : pyval) : Prop := exists n, v = VInt n /\ 0 < n.

(** Every key present in the ledger has a quantity above zero. *)
Definition ledger_invariant (sd : pyval) : Prop :=
  exists d, sd = VDict d /\ Forall (fun kv => positive_quantity kv.2) d.

(** A ledger of the data model: item names to integers, no name twice. *)
Definition int_ledger (d : list (string * pyval)) : Prop :=
  NoDup (Py.dict_keys d) /\ Forall (fun kv => exists n, kv.2 = VInt n) d.

(** [item] is a key of the dictionary [d]. *)
Definition present (d : list (string * pyval)) (item : pyval) : bool :=
  match item with
  | VStr s => bool_decide (is_Some (Py.dict_lookup d s))
  | _ => false
  end.

(** A call of the mutation interface. *)
Inductive call : Type :=
| Add (now : string) (item qty logs : pyval)
| Remove (item qty : pyval).

Definition run_call (c : call) : M unit :=
  match c with
  | Add now item qty logs => add_item now item qty logs ;;; ret tt
  | Remove item qty => remove_item item qty
  end.

Fixpoint run_calls (cs : list call) : M unit :=
  match cs with
  | [] => ret tt
  | c :: cs' => run_call c ;;; run_calls cs'
  end.

(** The arguments have the types of the signature: a text item, an integer
    quantity, and for [add_item] a list of log lines or none. *)
Definition well_typed (c : call) : Prop :=
  match c with
  | Add _ item qty logs =>
      Py.isinstance_str item = true /\ Py.isinstance_int qty = true /\
      (logs = VNone \/ exists l, logs = VList l)
  | Remove item qty =>
      Py.isinstance_str item = true /\ Py.isinstance_int qty = true
  end.

(** The world the calls leave, one after the other, each run to its end:
    the world a call leaves is the same whether it returns or raises. *)
Definition after_calls (cs : list call) (w : world) : world :=
  foldl (fun w c => final (run_call c w)) w cs.

(** The ledger [sd] holds no quantity of zero or below for [item]: the item
    is absent or its quantity is above zero. *)
Definition stocked_positive (sd item : pyval) : bool :=
  match sd, item with
  | VDict d, VStr s =>
      match Py.dict_lookup d s with
      | Some (VInt n) => 0 <? n
      | Some _ => false
      | None => true
      end
  | _, _ => true
  end.

(** No [add_item] among the calls, run from [w], leaves the item it is
    called on with a quantity of zero or below. *)
Fixpoint adds_leave_positive (cs : list call) (w : world) : Prop :=
  match cs with
  | [] => True
  | c :: cs' =>
      let w' := final (run_call c w) in
      match c with
      | Add _ item _ _ => stocked_positive (stock_data w') item = true
      | Remove _ _ => True
      end
      /\ adds_leave_positive cs' w'
  end.

(** The quantity of every [add_item] among the calls can be written in the
    log line. *)
Definition formats_quantity (c : call) : Prop :=
  match c with
  | Add _ _ qty _ => Py.formats qty = true
  | Remove _ _ => True
  end.

(** A ledger [json.dumps] writes: a ledger of the data model whose
    quantities are within the limit of the conversion to text. *)
Definition json_ledger (d : list (string * pyval)) : Prop :=
  int_ledger d
  /\ Forall (fun kv => forall n, kv.2 = VInt n -> Py.within_str_limit n = true) d.

(** The records of the module. *)
Definition invalid_types_warning (item qty : pyval) : logrecord :=
  LogRecord WARNING "Invalid types for item: %s or qty: %s. Skipping."
    [AVal item; AVal qty].

Definition not_found_warning (item : pyval) : logrecord :=
  LogRecord WARNING "Attempted to remove non-existent item: %s." [AVal item].

Definition zeroed_info (item : pyval) : logrecord :=
  LogRecord INFO "Item '%s' stock reached zero and removed." [AVal item].

Definition loaded_info : logrecord :=
  LogRecord INFO "Data loaded successfully." [].

Definition file_missing_warning (file : string) : logrecord :=
  LogRecord WARNING "File %s not found. Starting with empty stock."
    [AVal (VStr file)].

Definition corrupt_error : logrecord :=
  LogRecord ERROR "Error decoding JSON from file. Content may be corrupted." [].

Definition saved_info : logrecord :=
  LogRecord INFO "Data saved successfully." [].

Definition save_failed_error (e : exn) : logrecord :=
  LogRecord ERROR "Failed to save data: %s" [AExn e].

(** The key [k] of the ledger [d] has a quantity below [t]. *)
Definition low_stock_key (d : list (string * pyval)) (t : Z) (k : string) : bool :=
  match Py.dict_lookup d k with
  | Some (VInt n) => n <? t
  | _ => false
  end.

(** An object that [<] does not order with an integer: [None], a string, a
    list or a dictionary. *)
Definition unordered_with_int (v : pyval) : bool :=
  match v with
  | VNone | VStr _ | VList _ | VDict _ => true
  | VBool _ | VInt _ => false
  end.

(** The keys of [d] with a quantity below [t], in the order of the ledger. *)
Definition low_stock (d : list (string * pyval)) (t : Z) : list string :=
  List.filter (low_stock_key d t) (Py.dict_keys d).

(** A process that holds ten apples, and what [inventory.json] names. *)
Definition apples (node : option fnode) : world :=
  {| stock_data := VDict [("apple", VInt 10)];
     files := match node with
              | Some n => {[ default_file := n ]}
              | None => ∅
              end;
     records := [] |}.

(** The calls of a session: stock comes in, is corrected and goes out. *)
Definition demo_calls : list call :=
  [Add "t1" (VStr "apple") (VInt 10) (VList []);
   Add "t2" (VStr "apple") (VInt (-3)) VNone;
   Remove (VStr "apple") (VInt 3);
   Remove (VStr "orange") (VInt 1);
   Add "t3" (VStr "pear") (VBool true) VNone;
   Remove (VStr "apple") (VInt 9)].

(** ** Text of objects and the console *)

Module PyStr.

(** A character above the ASCII range that [repr] writes as it is: the
    Latin-1 characters that are not controls, the no-break space or the soft
    hyphen. *)
Definition printable_high (n : N) : bool :=
  (160 <? n)%N && negb (n =? 173)%N.

(** One character of [repr(s)], between quotes [q]. *)
Definition repr_char (q c : ascii) : list ascii :=
  let n := RefJson.code c in
  if Ascii.eqb c q || Ascii.eqb c "092" then ["092"%char; c]
  else if Ascii.eqb c "009" then ["092"; "t"]%char
  else if Ascii.eqb c "010" then ["092"; "n"]%char
  else if Ascii.eqb c "013" then ["092"; "r"]%char
  else if (n <? 32)%N || (n =? 127)%N then
    ["092"%char; "x"%char; RefJson.hex_digit (n / 16); RefJson.hex_digit (n mod 16)]
  else if (n <? 127)%N then [c]
  else if printable_high n then [c]
  else ["092"%char; "x"%char; RefJson.hex_digit (n / 16); RefJson.hex_digit (n mod 16)].

(** The quote of [repr(s)]: a double quote when [s] holds a single quote
    and no double quote, a single quote otherwise. *)
Definition repr_quote (s : list ascii) : ascii :=
  if existsb (Ascii.eqb "'") s && negb (existsb (Ascii.eqb "034") s)
  then "034"%char else "'"%char.

Definition repr_str (s : string) : list ascii :=
  let cs := String.list_ascii_of_string s in
  let q := repr_quote cs in
  q :: flat_map (repr_char q) cs ++ [q].

(** [repr(v)] *)
Fixpoint repr (v : pyval) {struct v} : list ascii :=
  match v with
  | VNone => RefJson.chars "None"
  | VBool true => RefJson.chars "True"
  | VBool false => RefJson.chars "False"
  | VInt n => Py.int_chars n
  | VStr s => repr_str s
  | VList [] => RefJson.chars "[]"
  | VList (x :: l) =>
      "["%char :: repr x ++
      (fix go (l : list pyval) : list ascii :=
         match l with
         | [] => []
         | y :: l' => (RefJson.chars ", " ++ repr y ++ go l')%list
         end) l ++
      ["]"%char]
  | VDict [] => RefJson.chars "{}"
  | VDict ((k, x) :: d) =>
      "{"%char :: repr_str k ++ RefJson.chars ": " ++ repr x ++
      (fix go (d : list (string * pyval)) : list ascii :=
         match d with
         | [] => []
         | (k', y) :: d' =>
             (RefJson.chars ", " ++ repr_str k' ++ RefJson.chars ": " ++
              repr y ++ go d')%list
         end) d ++
      ["}"%char]
  end.

(** An object whose text is written in one piece: [None], a boolean, a
    string, or an integer within the limit of the conversion to text. *)
Definition plain (v : pyval) : bool :=
  match v with
  | VNone | VBool _ | VStr _ => true
  | VInt n => Py.within_str_limit n
  | VList _ | VDict _ => false
  end.

(** [str(v)], which is what [f"{v}"] writes: a string is itself, any other
    object its [repr].  This is the text CPython writes where it writes one:
    it raises [ValueError] on an integer beyond the limit of
    [Py.within_str_limit]. *)
Definition str (v : pyval) : string :=
  match v with
  | VStr s => s
  | _ => String.string_of_list_ascii (repr v)
  end.

End PyStr.

(** A process with a console: what [print] has written, one string a call,
    and the world of the module. *)
Record console : Type := Console {
  stdout : list string;
  machine : world
}.

Inductive presult (A : Type) : Type :=
| Done (a : A) (c : console)
| Failed (e : exn) (c : console).
Arguments Done {A} a c.
Arguments Failed {A} e c.

Definition ended {A : Type} (r : presult A) : console :=
  match r with Done _ c => c | Failed _ c => c end.

Definition completes {A : Type} (r : presult A) : Prop :=
  match r with Done _ _ => True | Failed _ _ => False end.

Definition P (A : Type) : Type := console -> presult A.

Definition pret {A : Type} (a : A) : P A := fun c => Done a c.

Definition pbind {A B : Type} (m : P A) (k : A -> P B) : P B :=
  fun c =>
    match m c with
    | Done a c' => k a c'
    | Failed e c' => Failed e c'
    end.

(** A computation of the module, run in the process. *)
Definition lift {A : Type} (m : M A) : P A :=
  fun c =>
    match m (machine c) with
    | Return a w => Done a (Console (stdout c) w)
    | Raise e w => Failed e (Console (stdout c) w)
    end.

(** [print(s)] *)
Definition print (s : string) : P unit :=
  fun c => Done tt (Console (stdout c ++ [s]) (machine c)).

(** A process that starts in the world [w] with nothing printed. *)
Definition start (w : world) : console := Console [] w.

Declare Scope io_scope.
Delimit Scope io_scope with io.
Notation "x <- m ;; k" := (pbind m (fun x => k))
  (at level 100, m at next level, right associativity) : io_scope.
Notation "m ;;; k" := (pbind m (fun _ => k))
  (at level 100, right associativity) : io_scope.

(** The loop of [print_data] over the remaining items. *)
Fixpoint print_items (sd : pyval) (items : list pyval) : P unit :=
  match items with
  | [] => pret tt
  | item :: rest =>
      (v <- lift (eval (Py.getitem sd item)) ;;
       print (PyStr.str item +:+ " -> " +:+ PyStr.str v) ;;;
       print_items sd rest)%io
  end.

(** [print_data()] *)
Definition print_data : P unit :=
  (print "Items Report" ;;;
   sd <- lift read_stock ;;
   items <- lift (eval (Py.iter sd)) ;;
   print_items sd items)%io.

(** The line [print_data] writes for a key and its value. *)
Definition report_line (kv : string * pyval) : string :=
  kv.1 +:+ " -> " +:+ PyStr.str kv.2.

Section Main.

Variable json_loads : string -> option pyval.
Variable json_dumps : pyval -> string.

(** [main()].  [now1], [now2] and [now3] are what [datetime.now()] answers
    in the three calls of [add_item], when they ask. *)
Definition main (now1 now2 now3 : string) : P unit :=
  (lift (load_data json_loads default_file) ;;;
   logs <- lift (add_item now1 (VStr "apple") (VInt 10) (VList [])) ;;
   logs <- lift (add_item now2 (VStr "banana") (VInt (-2)) logs) ;;
   lift (add_item now3 (VInt 123) (VStr "ten") VNone) ;;;
   lift (remove_item (VStr "apple") (VInt 3)) ;;;
   lift (remove_item (VStr "orange") (VInt 1)) ;;;
   qty <- lift (get_qty (VStr "apple")) ;;
   print ("Apple stock: " +:+ PyStr.str qty) ;;;
   low <- lift (check_low_items default_threshold) ;;
   print ("Low items: " +:+ PyStr.str (VList low)) ;;;
   lift (save_data json_dumps default_file) ;;;
   print_data ;;;
   print "Security note: dangerous eval() removed!")%io.

(** What [inventory.json] names lets [main] through: nothing, so that
    [open] raises [FileNotFoundError]; or a text file whose text
    [json.loads] rejects with [JSONDecodeError]; or a text file that holds
    an object of integers of at most 4299 digits (ten times the integer is
    within the limit of the conversion to text), which leaves room for what
    [main] adds. *)
Definition inventory_ok (fs : gmap string fnode) : Prop :=
  match fs !! default_file with
  | None | Some NoParent => True
  | Some (Text text) =>
      json_loads text = None
      \/ exists d, json_loads text = Some (VDict d)
                   /\ Forall (fun kv => exists n, kv.2 = VInt n
                                        /\ Py.within_str_limit (10 * n) = true) d
  | Some Binary | Some Locked => False
  end.

End Main.

(** The object bound to [stock_data] is a dictionary of integers. *)
Definition ints_ledger (sd : pyval) : Prop :=
  exists d, sd = VDict d /\ Forall (fun kv => exists n, kv.2 = VInt n) d.

(** A computation that leaves the files as it found them, whether it
    returns or raises. *)
Definition keeps_files {A : Type} (m : M A) : Prop :=
  forall w, files (final (m w)) = files w.

(** The ledger [main] leaves when it starts from the empty one. *)
Definition first_run_ledger : pyval :=
  VDict [("apple", VInt 7); ("banana", VInt (-2))].

(** The ledger of the world is a dictionary of integers. *)
Definition ints_world (w : world) : Prop := ints_ledger (stock_data w).

(** From a world that satisfies [Pre] the computation returns, with a value
    and a world that satisfy [Post]. *)
Definition triple {A : Type} (Pre : world -> Prop) (m : M A)
    (Post : A -> world -> Prop) : Prop :=
  forall w, Pre w -> exists a w', m w = Return a w' /\ Post a w'.

(** The same for a process, whatever it has printed already. *)
Definition ptriple {A : Type} (Pre : world -> Prop) (m : P A)
    (Post : A -> world -> Prop) : Prop :=
  forall c, Pre (machine c) ->
            exists a c', m c = Done a c' /\ Post a (machine c').

(** ** Facts about dictionaries *)

Section DictFacts.

Implicit Types (d : list (string * pyval)) (k : string) (v : pyval).

Lemma dict_lookup_set_eq d k v :
  Py.dict_lookup (Py.dict_set d k v) k = Some v.
Proof.
  induction d as [|[k' v'] d IH]; simpl.
  - by rewrite String.eqb_refl.
  - destruct (String.eqb k' k) eqn:E; simpl; rewrite E; auto.
Qed.

Lemma dict_lookup_set_ne d k k' v :
  k <> k' -> Py.dict_lookup (Py.dict_set d k v) k' = Py.dict_lookup d k'.
Proof.
  intros Hne. induction d as [|[k0 v0] d IH]; simpl.
  - apply String.eqb_neq in Hne. by rewrite Hne.
  - destruct (String.eqb k0 k) eqn:E; simpl.
    + apply String.eqb_eq in E. subst k0.
      apply String.eqb_neq in Hne. by rewrite Hne.
    + by rewrite IH.
Qed.

Lemma dict_lookup_del_eq d k : Py.dict_lookup (Py.dict_del d k) k = None.
Proof.
  induction d as [|[k' v'] d IH]; simpl; [done|].
  destruct (String.eqb k' k) eqn:E; simpl; [done|]. by rewrite E.
Qed.

Lemma dict_lookup_del_ne d k k' :
  k <> k' -> Py.dict_lookup (Py.dict_del d k) k' = Py.dict_lookup d k'.
Proof.
  intros Hne. induction d as [|[k0 v0] d IH]; simpl; [done|].
  destruct (String.eqb k0 k) eqn:E; simpl.
  - apply String.eqb_eq in E. subst k0.
    apply String.eqb_neq in Hne. by rewrite Hne.
  - by rewrite IH.
Qed.

Lemma dict_del_set d k v : Py.dict_del (Py.dict_set d k v) k = Py.dict_del d k.
Proof.
  induction d as [|[k' v'] d IH]; simpl.
  - by rewrite String.eqb_refl.
  - destruct (String.eqb k' k) eqn:E; simpl; rewrite E; [done|]. by rewrite IH.
Qed.

Lemma dict_set_Forall (Q : pyval -> Prop) d k v :
  Forall (fun kv => Q kv.2) d -> Q v ->
  Forall (fun kv => Q kv.2) (Py.dict_set d k v).
Proof.
  intros Hd Hv. induction Hd as [|[k' v'] d Hx Hd IH]; simpl.
  - by constructor.
  - destruct (String.eqb k' k); constructor; auto.
Qed.

Lemma dict_del_Forall (P : string * pyval -> Prop) d k :
  Forall P d -> Forall P (Py.dict_del d k).
Proof.
  intros Hd. induction Hd as [|[k' v'] d Hx Hd IH]; simpl; [constructor|].
  destruct (String.eqb k' k); [done|]. by constructor.
Qed.

Lemma dict_lookup_Forall (P : string * pyval -> Prop) d k v :
  Forall P d -> Py.dict_lookup d k = Some v -> P (k, v).
Proof.
  intros Hd. induction Hd as [|[k' v'] d Hx Hd IH]; simpl; [done|].
  destruct (String.eqb k' k) eqn:E; [|done].
  apply String.eqb_eq in E. intros [= <-]. by subst k'.
Qed.

Lemma dict_lookup_is_Some d k :
  is_Some (Py.dict_lookup d k) <-> k ∈ Py.dict_keys d.
Proof.
  unfold Py.dict_keys. induction d as [|[k' v'] d IH]; simpl.
  - split; [by intros [? ?]|]. by intros ?%elem_of_nil.
  - rewrite elem_of_cons. destruct (String.eqb k' k) eqn:E.
    + apply String.eqb_eq in E. split; eauto.
    + apply String.eqb_neq in E. rewrite IH.
      split; [by right|]. intros [->|Hin]; [congruence|done].
Qed.

End DictFacts.

(** Unfolding the plumbing of a computation. *)
Ltac run_py :=
  repeat progress
    (unfold bind, ret, raise, eval, try_except, read_stock, write_stock,
       logging_info, logging_warning, logging_error, logging_log,
       open_read, open_write; simpl).

(** ** Adding stock *)

(** C5: a call of [add_item] whose item is not a string or whose quantity is
    not an integer logs one warning, returns, and leaves the ledger, the
    files and the caller's log list as they were; no key is added or
    modified. *)
Theorem add_item_invalid_types_noop (now : string) (item qty logs : pyval) (w : world) :
  Py.isinstance_str item = false \/ Py.isinstance_int qty = false ->
  add_item now item qty logs w
    = Return (if Py.is_none logs then VList [] else logs)
        (with_record (invalid_types_warning item qty) w)
  /\ stock_data (final (add_item now item qty logs w)) = stock_data w
  /\ lr_level (invalid_types_warning item qty) = WARNING.
Proof.
  intros Hbad.
  assert (add_item now item qty logs w
          = Return (if Py.is_none logs then VList [] else logs)
              (with_record (invalid_types_warning item qty) w)) as Hrun.
  { unfold add_item.
    destruct Hbad as [Hitem|Hqty].
    - destruct item; try discriminate Hitem; destruct (Py.isinstance_int qty); done.
    - rewrite Hqty. by destruct item. }
  rewrite Hrun. done.
Qed.

Lemma add_item_invalid_types_noop_witness :
  add_item "t" (VInt 123) (VStr "ten") VNone (initial ∅)
    = Return (VList [])
        (with_record (invalid_types_warning (VInt 123) (VStr "ten")) (initial ∅))
  /\ stock_data (final (add_item "t" (VInt 123) (VStr "ten") VNone (initial ∅)))
     = VDict []
  /\ lr_level (invalid_types_warning (VInt 123) (VStr "ten")) = WARNING.
Proof.
  apply (add_item_invalid_types_noop "t" (VInt 123) (VStr "ten") VNone (initial ∅)).
  left. reflexivity.
Defined.

(** What [add_item] does to a dictionary ledger on a text item and an
    integer quantity, whatever [logs] is: it stores the sum under the item
    before it touches [logs]. *)
Lemma add_item_stores (now s : string) (qty logs : pyval) (d : list (string * pyval))
    (w : world) (p q : Z) :
  s <> "" ->
  stock_data w = VDict d ->
  Py.as_int (default (VInt 0) (Py.dict_lookup d s)) = Some p ->
  Py.as_int qty = Some q ->
  let w' := with_stock (VDict (Py.dict_set d s (VInt (p + q)))) w in
  add_item now (VStr s) qty logs w
  = match Py.append_method (if Py.is_none logs then VList [] else logs)
            (VStr (now +:+ ": Added " +:+ Py.format_int qty +:+ " of " +:+ s)) with
    | inr l => Return l w'
    | inl e => Raise e w'
    end.
Proof.
  intros Hs Hw Hp Hq w'. unfold add_item.
  assert (Py.isinstance_int qty = true) as -> by (by destruct qty).
  assert (Py.truth (VStr s) = true) as ->.
  { simpl. apply String.eqb_neq in Hs. by rewrite Hs. }
  run_py. rewrite Hw. simpl.
  assert (Py.add (default (VInt 0) (Py.dict_lookup d s)) qty = inr (VInt (p + q))) as Hadd.
  { unfold Py.add. rewrite Hp, Hq.
    destruct (default (VInt 0) (Py.dict_lookup d s)); try discriminate Hp;
      destruct qty; try discriminate Hq; done. }
  destruct (Py.dict_lookup d s) as [v|]; simpl in Hadd; run_py; rewrite Hadd;
    run_py; by destruct (Py.append_method _ _).
Qed.

Lemma get_qty_dict (s : string) (d : list (string * pyval)) (w : world) :
  stock_data w = VDict d ->
  get_qty (VStr s) w = Return (default (VInt 0) (Py.dict_lookup d s)) w.
Proof.
  intros Hw. unfold get_qty. run_py. rewrite Hw. simpl.
  by destruct (Py.dict_lookup d s).
Qed.




(** ** Removing stock *)

(** [remove_item] on an item of a dictionary ledger whose quantity and whose
    decrement are integers. *)
Lemma remove_item_present (s : string) (qty v : pyval) (d : list (string * pyval))
    (w : world) (n q : Z) :
  stock_data w = VDict d ->
  Py.dict_lookup d s = Some v ->
  Py.as_int v = Some n ->
  Py.as_int qty = Some q ->
  remove_item (VStr s) qty w
  = Return tt
      (if n - q <=? 0
       then with_record (zeroed_info (VStr s)) (with_stock (VDict (Py.dict_del d s)) w)
       else with_stock (VDict (Py.dict_set d s (VInt (n - q)))) w).
Proof.
  intros Hw Hv Hn Hq. unfold remove_item. run_py.
  rewrite Hw. simpl. rewrite Hv. unfold Py.sub. rewrite Hn, Hq. run_py.
  rewrite dict_lookup_set_eq. run_py.
  destruct (n - q <=? 0); run_py; [|done].
  by rewrite dict_del_set.
Qed.

(** C4: when the item is present and the decremented quantity is zero or
    negative, [remove_item] deletes the key (the other entries stay, no
    negative quantity is kept), logs one informational record, and a
    following [get_qty] of the item returns 0. *)
Theorem remove_item_deletes_nonpositive (s : string) (qty v : pyval)
    (d : list (string * pyval)) (w : world) (n q : Z) :
  stock_data w = VDict d ->
  Py.dict_lookup d s = Some v ->
  Py.as_int v = Some n ->
  Py.as_int qty = Some q ->
  n - q <= 0 ->
  let w' := with_record (zeroed_info (VStr s))
              (with_stock (VDict (Py.dict_del d s)) w) in
  remove_item (VStr s) qty w = Return tt w'
  /\ lr_level (zeroed_info (VStr s)) = INFO
  /\ Py.dict_lookup (Py.dict_del d s) s = None
  /\ get_qty (VStr s) w' = Return (VInt 0) w'.
Proof.
  intros Hw Hv Hn Hq Hle w'.
  rewrite (remove_item_present s qty v d w n q Hw Hv Hn Hq).
  assert ((n - q <=? 0) = true) as -> by lia.
  split; [done|]. split; [done|]. split; [apply dict_lookup_del_eq|].
  rewrite (get_qty_dict s (Py.dict_del d s) w' eq_refl).
  by rewrite dict_lookup_del_eq.
Qed.

Lemma remove_item_deletes_nonpositive_witness :
  let w := with_stock (VDict [("apple", VInt 7); ("x", VInt 3)]) (initial ∅) in
  let w' := with_record (zeroed_info (VStr "x"))
              (with_stock (VDict [("apple", VInt 7)]) w) in
  remove_item (VStr "x") (VInt 5) w = Return tt w'
  /\ lr_level (zeroed_info (VStr "x")) = INFO
  /\ Py.dict_lookup [("apple", VInt 7)] "x" = None
  /\ get_qty (VStr "x") w' = Return (VInt 0) w'.
Proof.
  apply (remove_item_deletes_nonpositive "x" (VInt 5) (VInt 3)
           [("apple", VInt 7); ("x", VInt 3)]
           (with_stock (VDict [("apple", VInt 7); ("x", VInt 3)]) (initial ∅)) 3 5);
    [reflexivity | reflexivity | reflexivity | reflexivity | lia].
Defined.

(** [remove_item] on a hashable object that is not a key of the ledger. *)
Lemma remove_item_missing (item qty : pyval) (d : list (string * pyval)) (w : world) :
  stock_data w = VDict d ->
  Py.hashable item = true ->
  present d item = false ->
  remove_item item qty w = Return tt (with_record (not_found_warning item) w).
Proof.
  intros Hw Hhash Habsent.
  unfold remove_item. run_py. rewrite Hw.
  destruct item; try discriminate Hhash; try done.
  simpl in Habsent. apply bool_decide_eq_false in Habsent.
  simpl. destruct (Py.dict_lookup d s) eqn:E; [|done].
  exfalso. apply Habsent. eauto.
Qed.

(** C9: [remove_item] on an item that is not a key of the ledger logs one
    warning, returns, and leaves the ledger as it was, whatever the
    quantity.  The item is any hashable object; every string is one. *)
Theorem remove_item_absent_noop (item qty : pyval) (d : list (string * pyval))
    (w : world) :
  stock_data w = VDict d ->
  Py.hashable item = true ->
  present d item = false ->
  remove_item item qty w = Return tt (with_record (not_found_warning item) w)
  /\ stock_data (with_record (not_found_warning item) w) = stock_data w
  /\ lr_level (not_found_warning item) = WARNING.
Proof.
  intros Hw Hhash Habsent. split; [|done].
  by apply (remove_item_missing item qty d).
Qed.

Lemma remove_item_absent_noop_witness :
  let w := with_stock (VDict [("apple", VInt 7)]) (initial ∅) in
  remove_item (VStr "nonexistent") (VInt 1) w
    = Return tt (with_record (not_found_warning (VStr "nonexistent")) w)
  /\ stock_data (with_record (not_found_warning (VStr "nonexistent")) w) = stock_data w
  /\ lr_level (not_found_warning (VStr "nonexistent")) = WARNING.
Proof.
  apply (remove_item_absent_noop (VStr "nonexistent") (VInt 1) [("apple", VInt 7)]
           (with_stock (VDict [("apple", VInt 7)]) (initial ∅)));
    [reflexivity | reflexivity | reflexivity].
Defined.

(** ** The invariant of the ledger *)

Lemma ledger_invariant_lookup (d : list (string * pyval)) (s : string) (v : pyval) :
  Forall (fun kv => positive_quantity kv.2) d ->
  Py.dict_lookup d s = Some v ->
  exists n, v = VInt n /\ 0 < n.
Proof.
  intros Hd Hv.
  exact (dict_lookup_Forall (fun kv => positive_quantity kv.2) d s v Hd Hv).
Qed.

(** The world a call of [add_item] leaves is the world the call of the
    interface leaves. *)
Lemma final_run_add (now : string) (item qty logs : pyval) (w : world) :
  final (run_call (Add now item qty logs) w) = final (add_item now item qty logs w).
Proof.
  simpl. unfold bind. by destruct (add_item now item qty logs w).
Qed.

Lemma after_calls_cons (c : call) (cs : list call) (w : world) :
  after_calls (c :: cs) w = after_calls cs (final (run_call c w)).
Proof. reflexivity. Qed.

(** A well-typed call keeps the invariant, provided that an [add_item]
    leaves its item with a quantity above zero. *)
Lemma run_call_keeps_invariant (c : call) (w : world) :
  ledger_invariant (stock_data w) ->
  well_typed c ->
  match c with
  | Add _ item _ _ => stocked_positive (stock_data (final (run_call c w))) item = true
  | Remove _ _ => True
  end ->
  ledger_invariant (stock_data (final (run_call c w))).
Proof.
  intros (d & Hw & Hd) Htyped Hpos.
  destruct c as [now item qty logs|item qty].
  - rewrite final_run_add in *.
    destruct Htyped as (Hitem & Hqty & _).
    destruct item as [| | |s| |]; try discriminate Hitem.
    assert (exists q, Py.as_int qty = Some q) as (q & Hq).
    { destruct qty; try discriminate Hqty; simpl; eauto. }
    destruct (decide (s = "")) as [->|Hs].
    + unfold add_item. rewrite Hqty. simpl. by exists d.
    + assert (exists p, Py.as_int (default (VInt 0) (Py.dict_lookup d s)) = Some p)
        as (p & Hp).
      { destruct (Py.dict_lookup d s) as [v|] eqn:E; simpl; [|eauto].
        destruct (ledger_invariant_lookup d s v Hd E) as (n & -> & _). eauto. }
      pose proof (add_item_stores now s qty logs d w p q Hs Hw Hp Hq) as Hrun.
      cbv zeta in Hrun.
      assert (final (add_item now (VStr s) qty logs w)
              = with_stock (VDict (Py.dict_set d s (VInt (p + q)))) w) as Hfinal.
      { rewrite Hrun. by destruct (Py.append_method _ _). }
      rewrite Hfinal in *. simpl in *.
      rewrite dict_lookup_set_eq in Hpos.
      eexists. split; [reflexivity|].
      apply dict_set_Forall; [done|]. exists (p + q). split; [done|lia].
  - simpl in *. destruct Htyped as (Hitem & Hqty).
    destruct item as [| | |s| |]; try discriminate Hitem.
    assert (exists q, Py.as_int qty = Some q) as (q & Hq).
    { destruct qty; try discriminate Hqty; simpl; eauto. }
    destruct (Py.dict_lookup d s) as [v|] eqn:E.
    + destruct (ledger_invariant_lookup d s v Hd E) as (n & -> & Hn).
      rewrite (remove_item_present s qty (VInt n) d w n q Hw E eq_refl Hq).
      destruct (n - q <=? 0) eqn:Hcmp; simpl.
      * eexists. split; [reflexivity|]. by apply dict_del_Forall.
      * eexists. split; [reflexivity|].
        apply dict_set_Forall; [done|]. exists (n - q). split; [done|lia].
    + rewrite (remove_item_missing (VStr s) qty d w Hw eq_refl).
      * simpl. by exists d.
      * simpl. apply bool_decide_eq_false. rewrite E. by intros [? ?].
Qed.

(** On a ledger that satisfies the invariant, no key has a quantity of zero
    or below. *)
Lemma invariant_stocked_positive (sd item : pyval) :
  ledger_invariant sd -> stocked_positive sd item = true.
Proof.
  intros (d & -> & Hd). destruct item as [| | |s| |]; try done. simpl.
  destruct (Py.dict_lookup d s) as [v|] eqn:E; [|done].
  destruct (ledger_invariant_lookup d s v Hd E) as (n & -> & Hn). lia.
Qed.

Lemma calls_keep_invariant (cs : list call) (w : world) (n : nat) :
  ledger_invariant (stock_data w) ->
  Forall well_typed cs ->
  adds_leave_positive cs w ->
  ledger_invariant (stock_data (after_calls (take n cs) w)).
Proof.
  revert w n. induction cs as [|c cs IH]; intros w n Hinv Htyped Hadds.
  - by rewrite take_nil.
  - destruct n as [|n]; [done|].
    inversion Htyped as [|? ? Hc Hcs]; subst.
    destruct Hadds as [Hadd Hrest].
    rewrite firstn_cons, after_calls_cons.
    apply IH; [|done|done].
    by apply run_call_keeps_invariant.
Qed.

Lemma invariant_adds_leave_positive (cs : list call) (w : world) :
  (forall n, ledger_invariant (stock_data (after_calls (take n cs) w))) ->
  adds_leave_positive cs w.
Proof.
  revert w. induction cs as [|c cs IH]; intros w Hinv; [done|].
  split.
  - destruct c as [now item qty logs|item qty]; [|done].
    apply invariant_stocked_positive. exact (Hinv 1%nat).
  - apply IH. intros n. exact (Hinv (S n)).
Qed.

(** C1, as the specification states it, fails: [add_item] does not prune.
    After the single call [add_item("banana", -2)] on the empty ledger (a call
    of [main]) the key is present with quantity -2. *)
Lemma add_negative_breaks_invariant :
  let o := run_calls [Add "t" (VStr "banana") (VInt (-2)) VNone] (initial ∅) in
  returns o
  /\ stock_data (final o) = VDict [("banana", VInt (-2))]
  /\ ~ ledger_invariant (stock_data (final o)).
Proof.
  split; [exact I|]. split; [reflexivity|].
  intros (d & Hd & Hall). simpl in Hd. injection Hd as <-.
  inversion Hall as [|? ? (n & Hn & Hpos) _]; subst.
  simpl in Hn. injection Hn as <-. lia.
Qed.

(** C1, amended: from the empty ledger, for every sequence of calls with
    text items and integer quantities, every key of the ledger has a
    quantity above zero after every call exactly when no [add_item] leaves
    the item it is called on with a quantity of zero or below (an addition
    below zero that keeps the total above zero is no harm); and a
    [remove_item] that drives the quantity of a key to zero or below deletes
    the key.  The ledger after a call is the one the call leaves, whether it
    returns or raises. *)
Theorem positive_stock_after_calls (fs : gmap string fnode) (cs : list call) :
  Forall well_typed cs ->
  (adds_leave_positive cs (initial fs)
   <-> forall n, ledger_invariant
                   (stock_data (after_calls (take n cs) (initial fs))))
  /\ (forall s qty d w n q,
        stock_data w = VDict d ->
        Py.dict_lookup d s = Some (VInt n) ->
        Py.as_int qty = Some q ->
        n - q <= 0 ->
        stock_data (final (remove_item (VStr s) qty w)) = VDict (Py.dict_del d s)
        /\ Py.dict_lookup (Py.dict_del d s) s = None).
Proof.
  intros Htyped. split; [split|].
  - intros Hadds n. apply calls_keep_invariant; [|done|done].
    exists []. split; [done|constructor].
  - apply invariant_adds_leave_positive.
  - intros s qty d w n q Hw Hv Hq Hle.
    rewrite (remove_item_present s qty (VInt n) d w n q Hw Hv eq_refl Hq).
    assert ((n - q <=? 0) = true) as -> by lia.
    split; [done|apply dict_lookup_del_eq].
Qed.

Lemma positive_stock_after_calls_witness :
  ledger_invariant (stock_data (after_calls (take 2 demo_calls) (initial ∅)))
  /\ stock_data (after_calls (take 2 demo_calls) (initial ∅))
     = VDict [("apple", VInt 7)]
  /\ ledger_invariant (stock_data (after_calls demo_calls (initial ∅)))
  /\ stock_data (after_calls demo_calls (initial ∅)) = VDict [("pear", VInt 1)].
Proof.
  assert (Forall well_typed demo_calls) as Htyped.
  { unfold demo_calls. repeat apply Forall_cons_2; try apply Forall_nil_2;
      simpl; repeat split; eauto. }
  assert (adds_leave_positive demo_calls (initial ∅)) as Hadds.
  { simpl. repeat split. }
  pose proof (proj1 (proj1 (positive_stock_after_calls ∅ demo_calls Htyped)) Hadds)
    as Hinv.
  split; [exact (Hinv 2%nat)|]. split; [reflexivity|].
  split; [exact (Hinv 6%nat)|reflexivity].
Defined.

(** ** Low stock *)

Lemma low_items_loop_dict (d : list (string * pyval)) (threshold : pyval) (t : Z)
    (ks : list string) (acc : list pyval) :
  Py.as_int threshold = Some t ->
  Forall (fun kv => exists n, kv.2 = VInt n) d ->
  Forall (fun k => is_Some (Py.dict_lookup d k)) ks ->
  low_items_loop (VDict d) threshold (VStr <$> ks) acc
  = inr (acc ++ (VStr <$> List.filter (low_stock_key d t) ks))%list.
Proof.
  intros Ht Hd Hks. revert acc.
  induction Hks as [|k ks [v Hv] Hks IH]; intros acc; simpl.
  - by rewrite app_nil_r.
  - rewrite Hv. simpl.
    destruct (dict_lookup_Forall _ d k v Hd Hv) as (n & Hn). simpl in Hn. subst v.
    assert (Py.lt (VInt n) threshold = inr (n <? t)) as ->.
    { destruct threshold; try discriminate Ht; simpl in *; by injection Ht as <-. }
    simpl. rewrite IH. unfold low_stock_key at 2. rewrite Hv.
    destruct (n <? t); simpl; [|done]. by rewrite <- app_assoc.
Qed.

Lemma dict_keys_present (d : list (string * pyval)) :
  Forall (fun k => is_Some (Py.dict_lookup d k)) (Py.dict_keys d).
Proof. apply Forall_forall. intros k Hk. by apply dict_lookup_is_Some. Qed.

Lemma elem_of_low_stock (d : list (string * pyval)) (t : Z) (s : string) :
  Forall (fun kv => exists n, kv.2 = VInt n) d ->
  s ∈ low_stock d t <-> exists n, Py.dict_lookup d s = Some (VInt n) /\ n < t.
Proof.
  intros Hd. unfold low_stock, low_stock_key.
  rewrite list_elem_of_In, filter_In, <- list_elem_of_In, <- dict_lookup_is_Some.
  split.
  - intros [[v Hv] Hlow]. rewrite Hv in Hlow.
    destruct v; try discriminate Hlow. exists n. split; [done|lia].
  - intros (n & Hn & Hlt). rewrite Hn. split; [eauto|lia].
Qed.

(** C8: on a ledger of integer quantities and an integer threshold,
    [check_low_items] returns, in the order of the ledger, exactly the item
    names whose quantity is strictly below the threshold, each once. *)
Theorem check_low_items_strict (threshold : pyval) (d : list (string * pyval))
    (w : world) (t : Z) :
  stock_data w = VDict d ->
  int_ledger d ->
  Py.as_int threshold = Some t ->
  check_low_items threshold w = Return (VStr <$> low_stock d t) w
  /\ (forall s, s ∈ low_stock d t <->
                exists n, Py.dict_lookup d s = Some (VInt n) /\ n < t)
  /\ NoDup (low_stock d t).
Proof.
  intros Hw [Hnodup Hd] Ht. split; [|split].
  - unfold check_low_items. run_py. rewrite Hw. run_py.
    rewrite (low_items_loop_dict d threshold t (Py.dict_keys d) [] Ht Hd
               (dict_keys_present d)).
    done.
  - intros s. by apply elem_of_low_stock.
  - unfold low_stock. apply NoDup_ListNoDup, List.NoDup_filter, NoDup_ListNoDup.
    exact Hnodup.
Qed.

Lemma check_low_items_strict_witness :
  let w := with_stock (VDict [("a", VInt 3); ("b", VInt 10); ("c", VInt 4)])
             (initial ∅) in
  check_low_items default_threshold w = Return [VStr "a"; VStr "c"] w
  /\ (forall s, s ∈ ["a"; "c"] <->
                exists n, Py.dict_lookup [("a", VInt 3); ("b", VInt 10); ("c", VInt 4)] s
                          = Some (VInt n) /\ n < 5)
  /\ NoDup ["a"; "c"].
Proof.
  apply (check_low_items_strict default_threshold
           [("a", VInt 3); ("b", VInt 10); ("c", VInt 4)]
           (with_stock (VDict [("a", VInt 3); ("b", VInt 10); ("c", VInt 4)])
              (initial ∅)) 5).
  - reflexivity.
  - split.
    + apply (bool_decide_unpack _). vm_compute. exact I.
    + repeat apply Forall_cons_2; try apply Forall_nil_2; simpl; eauto.
  - reflexivity.
Defined.

(** ** Operations that raise *)

(** C2 fails on the code.  [load_data] lets through what [open] and [read]
    raise besides [FileNotFoundError]; [remove_item] lets a [TypeError]
    through; after [load_data] has bound [stock_data] to a JSON array,
    [get_qty] raises; and [add_item] with a [logs] that is no list raises
    after it has changed the ledger. *)
Theorem operations_raise :
  (forall json_loads,
     load_data json_loads default_file (apples (Some Binary))
     = Raise UnicodeDecodeError (apples (Some Binary)))
  /\ (forall json_loads,
        load_data json_loads default_file (apples (Some Locked))
        = Raise PermissionError (apples (Some Locked)))
  /\ remove_item (VStr "apple") (VStr "three") (apples None)
     = Raise TypeError (apples None)
  /\ (load_data RefJson.loads default_file ;;; get_qty (VStr "apple"))
       (apples (Some (Text "[]")))
     = Raise AttributeError
         (with_record loaded_info (with_stock (VList []) (apples (Some (Text "[]")))))
  /\ add_item "t" (VStr "apple") (VInt 1) (VStr "log") (apples None)
     = Raise AttributeError (with_stock (VDict [("apple", VInt 11)]) (apples None)).
Proof.
  repeat split; intros; reflexivity.
Qed.

(** ** Loading and saving *)

Section PersistenceFacts.

Variable json_loads : string -> option pyval.
Variable json_dumps : pyval -> string.

Lemma load_data_missing (file : string) (w : world) :
  missing_file w file ->
  load_data json_loads file w = Return tt (with_record (file_missing_warning file) w).
Proof.
  intros Hmiss. unfold load_data. run_py.
  destruct Hmiss as [[-> ->] | ->]; done.
Qed.

Lemma load_data_corrupt (file : string) (w : world) :
  rejected_text json_loads w file ->
  load_data json_loads file w = Return tt (with_record corrupt_error w).
Proof.
  intros (text & Hfile & Hbad). unfold load_data. run_py.
  rewrite Hfile. run_py. rewrite Hbad. done.
Qed.

Lemma load_data_parsed (file text : string) (v : pyval) (w : world) :
  files w !! file = Some (Text text) ->
  json_loads text = Some v ->
  load_data json_loads file w = Return tt (with_record loaded_info (with_stock v w)).
Proof.
  intros Hfile Hv. unfold load_data. run_py.
  rewrite Hfile. run_py. rewrite Hv. done.
Qed.

Lemma missing_not_corrupt (file : string) (w : world) :
  missing_file w file -> rejected_text json_loads w file -> False.
Proof.
  intros [[Hm _]|Hm] (text & Hfile & _); rewrite Hm in Hfile; discriminate.
Qed.

(** The two failures [load_data] handles.  When opening the path raises
    [FileNotFoundError] it logs the warning, and when the file holds text
    that [json.loads] rejects with [JSONDecodeError] it logs the error; in
    both cases it returns and [stock_data] is the object it was before the
    call. *)
Lemma load_data_handled_failures (file : string) (w : world) :
  missing_file w file \/ rejected_text json_loads w file ->
  exists r,
    load_data json_loads file w = Return tt (with_record r w)
    /\ (missing_file w file -> r = file_missing_warning file /\ lr_level r = WARNING)
    /\ (rejected_text json_loads w file -> r = corrupt_error /\ lr_level r = ERROR).
Proof.
  intros [Hmiss|Hbad].
  - exists (file_missing_warning file).
    rewrite (load_data_missing file w Hmiss).
    split; [done|]. split; [done|].
    intros Hbad. destruct (missing_not_corrupt file w Hmiss Hbad).
  - exists corrupt_error.
    rewrite (load_data_corrupt file w Hbad).
    split; [done|]. split; [|done].
    intros Hmiss. destruct (missing_not_corrupt file w Hmiss Hbad).
Qed.

(** C6 fails on the code.  A file whose bytes are not valid UTF-8 holds
    content that is not syntactically valid, and on it [load_data] does not
    report an error and return: [f.read()] raises [UnicodeDecodeError],
    which is neither of the two exceptions [load_data] handles, so the
    caller gets the exception and nothing is logged.  The ledger and the
    files are as they were. *)
Theorem load_data_undecodable_raises (file : string) (w : world) :
  files w !! file = Some Binary ->
  load_data json_loads file w = Raise UnicodeDecodeError w
  /\ ~ returns (load_data json_loads file w)
  /\ records (final (load_data json_loads file w)) = records w
  /\ stock_data (final (load_data json_loads file w)) = stock_data w.
Proof.
  intros Hfile.
  assert (load_data json_loads file w = Raise UnicodeDecodeError w) as ->.
  { unfold load_data. run_py. by rewrite Hfile. }
  split; [done|]. split; [|done]. intros [].
Qed.

(** C10: [load_data] checks nothing beyond the syntax.  Whatever object the
    text of the file denotes becomes [stock_data], so a text that denotes an
    object violating the invariant of the ledger (an array, a quantity that
    is not above zero) leaves a ledger that violates it. *)
Theorem load_data_replaces_verbatim (file text : string) (v : pyval) (w : world) :
  files w !! file = Some (Text text) ->
  json_loads text = Some v ->
  ~ ledger_invariant v ->
  load_data json_loads file w = Return tt (with_record loaded_info (with_stock v w))
  /\ stock_data (final (load_data json_loads file w)) = v
  /\ ~ ledger_invariant (stock_data (final (load_data json_loads file w))).
Proof.
  intros Hfile Hv Hbad.
  rewrite (load_data_parsed file text v w Hfile Hv). done.
Qed.


(** A save whose [open] raises an [OSError] logs the error and changes
    nothing else. *)
Lemma save_data_unopenable (file : string) (w : world) :
  unopenable w file ->
  exists e, is_OSError e = true /\
            save_data json_dumps file w = Return tt (with_record (save_failed_error e) w).
Proof.
  intros Hun. unfold save_data. run_py.
  destruct Hun as [-> | ->].
  - by exists PermissionError.
  - by exists FileNotFoundError.
Qed.

(** A save that returns after it logged its success has written the text of
    the ledger to the file. *)
Lemma save_data_succeeded (file : string) (w w1 : world) :
  save_data json_dumps file w = Return tt w1 ->
  records w1 = (records w ++ [saved_info])%list ->
  w1 = with_record saved_info (with_file file (Text (json_dumps (stock_data w))) w).
Proof.
  unfold save_data. run_py.
  destruct (files w !! file) as [[]|]; run_py;
    try destruct (has_nul file); run_py;
    try (intros [= <-]; simpl; intros Hrec; try done;
         apply app_inv_head in Hrec; discriminate Hrec);
    discriminate.
Qed.

(** What the [json] module promises on a ledger it writes. *)
Hypothesis json_roundtrip :
  forall d, json_ledger d -> json_loads (json_dumps (VDict d)) = Some (VDict d).

(** C7: on a ledger of item names and integer quantities, after a
    [save_data] that succeeded (it returned and logged that the data was
    saved), the file holds the text of the ledger, and [load_data] of the
    same path returns and binds [stock_data] to a dictionary identical to
    the one saved, whatever [stock_data] was bound to in between. *)
Theorem save_then_load_roundtrip (file : string) (d : list (string * pyval))
    (w w1 : world) :
  stock_data w = VDict d ->
  json_ledger d ->
  save_data json_dumps file w = Return tt w1 ->
  records w1 = (records w ++ [saved_info])%list ->
  stock_data w1 = VDict d
  /\ files w1 !! file = Some (Text (json_dumps (VDict d)))
  /\ forall sd, exists w2,
       load_data json_loads file (with_stock sd w1) = Return tt w2
       /\ stock_data w2 = VDict d.
Proof.
  intros Hw Hd Hsave Hrec.
  rewrite (save_data_succeeded file w w1 Hsave Hrec), Hw.
  assert (<[file := Text (json_dumps (VDict d))]> (files w) !! file
          = Some (Text (json_dumps (VDict d)))) as Hfile by apply lookup_insert_eq.
  split; [done|]. split; [exact Hfile|].
  intros sd.
  exists (with_record loaded_info
            (with_stock (VDict d)
               (with_stock sd
                  (with_record saved_info
                     (with_file file (Text (json_dumps (VDict d))) w))))).
  split; [|done].
  by apply (load_data_parsed file (json_dumps (VDict d))); [|apply json_roundtrip].
Qed.

End PersistenceFacts.

(** ** The JSON codec reads back what it writes for a ledger *)

Module RefJsonFacts.
Import RefJson.


Lemma parse_escape_char (c : ascii) (tail : list ascii) :
  parse_string_body (escape_char c ++ tail) = push c (parse_string_body tail).
Proof. destruct c as [[] [] [] [] [] [] [] []]; reflexivity. Qed.

Lemma parse_string_body_escaped (s rest : list ascii) :
  parse_string_body (flat_map escape_char s ++ "034"%char :: rest) = Some (s, rest).
Proof.
  induction s as [|c s IH]; [reflexivity|].
  change (flat_map escape_char (c :: s)) with (escape_char c ++ flat_map escape_char s)%list.
  rewrite <- app_assoc, parse_escape_char, IH. reflexivity.
Qed.

Lemma span_digits_digit (c : ascii) (r : list ascii) (D : Decimal.uint -> Decimal.uint) :
  digit_of c = Some D ->
  span_digits (c :: r) = (D (span_digits r).1, (span_digits r).2).
Proof. intros H. cbn [span_digits]. rewrite H. by destruct (span_digits r). Qed.

Lemma span_digits_uint_chars (u : Decimal.uint) (rest : list ascii) :
  number_end rest -> span_digits (Py.uint_chars u ++ rest) = (u, rest).
Proof.
  intros Hend. induction u; cbn [Py.uint_chars app];
    try (erewrite span_digits_digit by reflexivity; rewrite IHu; reflexivity).
  destruct rest as [|c r]; [reflexivity|]. destruct Hend as [Hc _].
  cbn [span_digits]. rewrite Hc. reflexivity.
Qed.

Lemma nzhead_leading (u : Decimal.uint) :
  Decimal.nzhead u = Decimal.Nil \/ leading_nonzero (Decimal.nzhead u).
Proof. induction u; simpl; auto. Qed.

Lemma to_uint_leading (p : positive) : leading_nonzero (Pos.to_uint p).
Proof.
  pose proof (Unsigned.to_of (Pos.to_uint p)) as H.
  rewrite Unsigned.of_to in H. simpl in H.
  pose proof (Unsigned.to_uint_nonzero p) as Hnz.
  unfold Decimal.unorm in H.
  destruct (nzhead_leading (Pos.to_uint p)) as [Hnil|Hlead].
  - rewrite Hnil in H. contradiction.
  - destruct (Decimal.nzhead (Pos.to_uint p)) eqn:E; try contradiction;
      rewrite H; exact I.
Qed.


Lemma parse_natural_uint_chars (u : Decimal.uint) (rest : list ascii) :
  leading_nonzero u -> number_end rest ->
  parse_natural (Py.uint_chars u ++ rest) = Some (Z.of_N (Pos.of_uint u), rest).
Proof.
  intros Hlead Hend.
  pose proof (span_digits_uint_chars u rest Hend) as Hspan.
  destruct u; try contradiction; cbn [Py.uint_chars app] in *;
    unfold parse_natural; rewrite Hspan; reflexivity.
Qed.

Lemma parse_number_int_chars (n : Z) (rest : list ascii) :
  number_end rest ->
  parse_number (Py.int_chars n ++ rest) = Some (VInt n, rest).
Proof.
  intros Hend.
  assert (starts_float rest = false) as Hfloat.
  { destruct rest; [reflexivity|]. by destruct Hend. }
  destruct n as [|p|p]; unfold Py.int_chars.
  - unfold parse_number. simpl. by rewrite Hfloat.
  - pose proof (parse_natural_uint_chars _ rest (to_uint_leading p) Hend) as Hnat.
    pose proof (to_uint_leading p) as Hlead.
    unfold parse_number.
    destruct (Pos.to_uint p) eqn:E; try contradiction; cbn [Py.uint_chars app] in *;
      cbn [Ascii.eqb Bool.eqb]; rewrite Hnat, Hfloat, <- E, Unsigned.of_to; reflexivity.
  - pose proof (parse_natural_uint_chars _ rest (to_uint_leading p) Hend) as Hnat.
    unfold parse_number. cbn [app Ascii.eqb Bool.eqb].
    rewrite Hnat, Hfloat, Unsigned.of_to. reflexivity.
Qed.


Lemma parse_value_number (fuel : nat) (c : ascii) (r : list ascii) :
  is_number_start c = true ->
  parse_value (S fuel) (c :: r) = parse_number (c :: r).
Proof.
  destruct c as [[] [] [] [] [] [] [] []]; intros H; try discriminate H; reflexivity.
Qed.

Lemma int_chars_head (n : Z) :
  exists c r, Py.int_chars n = c :: r /\ is_number_start c = true /\ is_ws c = false.
Proof.
  destruct n as [|p|p]; unfold Py.int_chars.
  - by eexists _, _.
  - pose proof (to_uint_leading p) as Hlead.
    destruct (Pos.to_uint p); try contradiction; by eexists _, _.
  - by eexists _, _.
Qed.

Lemma skip_ws_indent (level : nat) (rest : list ascii) :
  skip_ws (newline_indent level ++ rest) = skip_ws rest.
Proof.
  unfold newline_indent. cbn [app skip_ws is_ws Ascii.eqb Bool.eqb orb].
  induction (4 * level)%nat as [|m IH]; [reflexivity|]. exact IH.
Qed.

Lemma skip_ws_stop (c : ascii) (r : list ascii) :
  is_ws c = false -> skip_ws (c :: r) = c :: r.
Proof. intros H. cbn [skip_ws]. by rewrite H. Qed.

Lemma skip_ws_go (c : ascii) (r : list ascii) :
  is_ws c = true -> skip_ws (c :: r) = skip_ws r.
Proof. intros H. cbn [skip_ws]. by rewrite H. Qed.

Lemma parse_members_eq (fuel : nat) (acc : list (string * pyval)) (r : list ascii) :
  parse_members (S fuel) acc ("034"%char :: r)
  = match parse_string_body r with
    | Some (k, r1) =>
        match skip_ws r1 with
        | [] => None
        | c1 :: r2 =>
            if Ascii.eqb c1 ":" then
              match parse_value fuel (skip_ws r2) with
              | Some (v, r3) =>
                  let acc' := Py.dict_set acc (String.string_of_list_ascii k) v in
                  match skip_ws r3 with
                  | [] => None
                  | c3 :: r4 =>
                      if Ascii.eqb c3 "," then parse_members fuel acc' (skip_ws r4)
                      else if Ascii.eqb c3 "}" then Some (VDict acc', r4)
                      else None
                  end
              | None => None
              end
            else None
        end
    | None => None
    end.
Proof. reflexivity. Qed.

Lemma parse_members_member (fuel : nat) (acc : list (string * pyval)) (k : string)
    (n : Z) (rest : list ascii) :
  number_end rest ->
  parse_members (S (S fuel)) acc (quote k ++ chars ": " ++ Py.int_chars n ++ rest)
  = match skip_ws rest with
    | [] => None
    | c :: r =>
        if Ascii.eqb c "," then
          parse_members (S fuel) (Py.dict_set acc k (VInt n)) (skip_ws r)
        else if Ascii.eqb c "}" then Some (VDict (Py.dict_set acc k (VInt n)), r)
        else None
    end.
Proof.
  intros Hend. unfold quote.
  destruct (int_chars_head n) as (c & r & Hn & Hstart & Hws).
  cbn [app]. rewrite <- app_assoc. cbn [app].
  rewrite parse_members_eq, parse_string_body_escaped.
  change (chars ": ") with [":"; " "]%char. cbn [app].
  rewrite (skip_ws_stop ":") by reflexivity.
  rewrite Ascii.eqb_refl.
  rewrite (skip_ws_go " ") by reflexivity.
  rewrite Hn. cbn [app]. rewrite (skip_ws_stop c) by exact Hws.
  rewrite (parse_value_number fuel c) by exact Hstart.
  change (c :: r ++ rest)%list with ((c :: r) ++ rest)%list.
  rewrite <- Hn, (parse_number_int_chars n rest Hend).
  cbv zeta. rewrite String.string_of_list_ascii_of_string. reflexivity.
Qed.

Lemma render_dict_cons (level : nat) (k : string) (x : pyval)
    (d : list (string * pyval)) :
  render level (VDict ((k, x) :: d))
  = ("{"%char :: newline_indent (S level) ++ quote k ++ chars ": " ++
     render (S level) x ++ render_more level d ++
     newline_indent level ++ ["}"%char])%list.
Proof.
  cbn [render]. do 6 f_equal.
  induction d as [|[k' y] d IH]; [reflexivity|].
  cbn [render_more]. rewrite <- IH. reflexivity.
Qed.

Lemma parse_value_object_eq (fuel : nat) (r : list ascii) :
  parse_value (S fuel) ("{"%char :: r)
  = match skip_ws r with
    | [] => None
    | c' :: r' =>
        if Ascii.eqb c' "}" then Some (VDict [], r')
        else parse_members fuel [] (c' :: r')
    end.
Proof. reflexivity. Qed.

Lemma dict_set_fresh (acc : list (string * pyval)) (k : string) (v : pyval) :
  Py.dict_lookup acc k = None -> Py.dict_set acc k v = (acc ++ [(k, v)])%list.
Proof.
  induction acc as [|[k' v'] acc IH]; simpl; [done|].
  destruct (String.eqb k' k); [done|]. intros H. by rewrite IH.
Qed.

Lemma dict_lookup_snoc_ne (acc : list (string * pyval)) (k k' : string) (v : pyval) :
  k <> k' ->
  Py.dict_lookup (acc ++ [(k, v)]) k' = Py.dict_lookup acc k'.
Proof.
  intros Hne. induction acc as [|[k0 v0] acc IH]; simpl.
  - apply String.eqb_neq in Hne. by rewrite Hne.
  - by rewrite IH.
Qed.

Lemma skip_ws_quote (k : string) (rest : list ascii) :
  skip_ws (quote k ++ rest) = (quote k ++ rest)%list.
Proof. unfold quote. cbn [app]. by apply skip_ws_stop. Qed.

Lemma parse_members_flat (d : list (string * pyval)) :
  forall (fuel : nat) (acc : list (string * pyval)) (k : string) (n : Z)
         (rest : list ascii),
    (length d <= fuel)%nat ->
    Forall (fun kv => exists m, kv.2 = VInt m) d ->
    NoDup (k :: Py.dict_keys d) ->
    (forall k', k' ∈ k :: Py.dict_keys d -> Py.dict_lookup acc k' = None) ->
    parse_members (S (S fuel)) acc
      (quote k ++ chars ": " ++ Py.int_chars n ++ render_more 0 d ++
       newline_indent 0 ++ "}"%char :: rest)
    = Some (VDict (acc ++ (k, VInt n) :: d), rest).
Proof.
  induction d as [|[k2 v2] d IH]; intros fuel acc k n rest Hfuel Hints Hnodup Hfresh.
  - cbn [render_more app].
    rewrite parse_members_member by (split; reflexivity).
    rewrite skip_ws_indent, (skip_ws_stop "}") by reflexivity.
    change (Ascii.eqb "}" ",") with false. rewrite Ascii.eqb_refl. cbv iota.
    rewrite dict_set_fresh; [done|]. apply Hfresh. by left.
  - inversion Hints as [|? ? [n2 Hn2] Hints']; subst. simpl in Hn2. subst v2.
    destruct fuel as [|fuel]; [simpl in Hfuel; lia|].
    cbn [render_more render].
    rewrite parse_members_member by (split; reflexivity).
    cbn [app]. rewrite <- !app_assoc.
    rewrite (skip_ws_stop ",") by reflexivity.
    rewrite Ascii.eqb_refl, skip_ws_indent, skip_ws_quote.
    rewrite dict_set_fresh by (apply Hfresh; by left).
    apply NoDup_cons in Hnodup as [Hk Hnodup].
    rewrite IH.
    + by rewrite <- app_assoc.
    + simpl in Hfuel. lia.
    + done.
    + exact Hnodup.
    + intros k' Hk'. rewrite dict_lookup_snoc_ne.
      * apply Hfresh. by right.
      * intros ->. by apply Hk.
Qed.

Lemma length_render_more (d : list (string * pyval)) :
  (length d <= length (render_more 0 d))%nat.
Proof.
  induction d as [|[k y] d IH]; [done|].
  cbn [render_more length]. rewrite !length_app. lia.
Qed.

(** The codec keeps the promise of the [json] module on a ledger of the
    data model. *)
Lemma loads_dumps_int_ledger (d : list (string * pyval)) :
  int_ledger d -> loads (dumps (VDict d)) = Some (VDict d).
Proof.
  intros [Hnodup Hints]. unfold loads, dumps, chars.
  rewrite String.list_ascii_of_string_of_list_ascii.
  destruct d as [|[k v] d]; [reflexivity|].
  inversion Hints as [|? ? [n Hn] Hints']; subst. simpl in Hn. subst v.
  rewrite render_dict_cons.
  set (body := (quote k ++ chars ": " ++ render 1 (VInt n) ++ render_more 0 d ++
                newline_indent 0 ++ ["}"%char])%list).
  assert (exists fuel, length ("{"%char :: newline_indent 1 ++ body) = S (S fuel)
                       /\ (length d <= fuel)%nat) as (fuel & -> & Hfuel).
  { exists (length ("{"%char :: newline_indent 1 ++ body) - 2)%nat.
    pose proof (length_render_more d). unfold body, quote.
    cbn [length]. rewrite !length_app. cbn [length]. rewrite !length_app.
    cbn [length]. lia. }
  rewrite (skip_ws_stop "{") by reflexivity.
  rewrite parse_value_object_eq, skip_ws_indent. unfold body.
  rewrite skip_ws_quote.
  unfold quote at 1. cbn [app]. change (Ascii.eqb "034" "}") with false. cbv iota.
  change ("034"%char :: (flat_map escape_char (String.list_ascii_of_string k) ++ ["034"%char]) ++
          chars ": " ++ render 1 (VInt n) ++ render_more 0 d ++ newline_indent 0 ++ ["}"%char])%list
    with (quote k ++ chars ": " ++ Py.int_chars n ++ render_more 0 d ++
          newline_indent 0 ++ "}"%char :: [])%list.
  rewrite (parse_members_flat d fuel [] k n []); [reflexivity|lia|done|done|done].
Qed.

End RefJsonFacts.

(** ** The theorems on persistence, on the JSON codec *)

Lemma load_data_undecodable_raises_witness :
  let w := {| stock_data := VDict [("apple", VInt 10); ("pear", VInt 2)];
              files := {[ "stock.json" := Binary ]};
              records := [saved_info] |} in
  load_data RefJson.loads "stock.json" w = Raise UnicodeDecodeError w
  /\ ~ returns (load_data RefJson.loads "stock.json" w)
  /\ records (final (load_data RefJson.loads "stock.json" w)) = [saved_info]
  /\ stock_data (final (load_data RefJson.loads "stock.json" w))
     = VDict [("apple", VInt 10); ("pear", VInt 2)].
Proof.
  apply (load_data_undecodable_raises RefJson.loads "stock.json"
           {| stock_data := VDict [("apple", VInt 10); ("pear", VInt 2)];
              files := {[ "stock.json" := Binary ]};
              records := [saved_info] |}).
  reflexivity.
Defined.

Lemma not_invariant_list (l : list pyval) : ~ ledger_invariant (VList l).
Proof. intros (d & Hd & _). discriminate Hd. Qed.

Lemma not_invariant_nonpositive (k : string) (n : Z) (d : list (string * pyval)) :
  n <= 0 -> ~ ledger_invariant (VDict ((k, VInt n) :: d)).
Proof.
  intros Hn (d' & Hd & Hall). injection Hd as <-.
  inversion Hall as [|? ? (m & Hm & Hpos) _]; subst.
  simpl in Hm. injection Hm as <-. lia.
Qed.

Lemma load_data_replaces_verbatim_witness :
  (let w := apples (Some (Text "[1, 2]")) in
   load_data RefJson.loads default_file w
   = Return tt (with_record loaded_info (with_stock (VList [VInt 1; VInt 2]) w))
   /\ stock_data (final (load_data RefJson.loads default_file w))
      = VList [VInt 1; VInt 2]
   /\ ~ ledger_invariant (stock_data (final (load_data RefJson.loads default_file w))))
  /\ (let text := RefJson.dumps (VDict [("apple", VInt (-3))]) in
      let w := apples (Some (Text text)) in
      load_data RefJson.loads default_file w
      = Return tt (with_record loaded_info
                     (with_stock (VDict [("apple", VInt (-3))]) w))
      /\ stock_data (final (load_data RefJson.loads default_file w))
         = VDict [("apple", VInt (-3))]
      /\ ~ ledger_invariant
            (stock_data (final (load_data RefJson.loads default_file w)))).
Proof.
  split.
  - apply (load_data_replaces_verbatim RefJson.loads default_file "[1, 2]"
             (VList [VInt 1; VInt 2]) (apples (Some (Text "[1, 2]"))));
      [reflexivity | reflexivity | apply not_invariant_list].
  - apply (load_data_replaces_verbatim RefJson.loads default_file
             (RefJson.dumps (VDict [("apple", VInt (-3))]))
             (VDict [("apple", VInt (-3))])
             (apples (Some (Text (RefJson.dumps (VDict [("apple", VInt (-3))]))))));
      [reflexivity | reflexivity | apply not_invariant_nonpositive; lia].
Defined.

Lemma save_then_load_roundtrip_witness :
  let saved := VDict [("apple", VInt 10)] in
  let w1 := final (save_data RefJson.dumps default_file (apples None)) in
  stock_data w1 = saved
  /\ files w1 !! default_file = Some (Text (RefJson.dumps saved))
  /\ exists w2,
       load_data RefJson.loads default_file (with_stock (VDict []) w1) = Return tt w2
       /\ stock_data w2 = saved.
Proof.
  intros saved w1.
  assert (json_ledger [("apple", VInt 10)]) as Hd.
  { split; [split|].
    - apply (bool_decide_unpack _). vm_compute. exact I.
    - repeat apply Forall_cons_2; try apply Forall_nil_2; simpl; eauto.
    - repeat apply Forall_cons_2; try apply Forall_nil_2; simpl.
      intros n [= <-]. reflexivity. }
  destruct (save_then_load_roundtrip RefJson.loads RefJson.dumps
              (fun d H => RefJsonFacts.loads_dumps_int_ledger d (proj1 H))
              default_file [("apple", VInt 10)] (apples None) w1
              eq_refl Hd eq_refl eq_refl) as (Hstock & Hfile & Hload).
  split; [exact Hstock|]. split; [exact Hfile|]. exact (Hload (VDict [])).
Defined.

(** ** More on dictionaries *)

Section DictOrder.

Implicit Types (d : list (string * pyval)) (k : string) (v : pyval).

Lemma dict_set_same d k v : Py.dict_lookup d k = Some v -> Py.dict_set d k v = d.
Proof.
  induction d as [|[k' v'] d IH]; simpl; [done|].
  destruct (String.eqb k' k); [by intros [= ->]|]. intros H. by rewrite IH.
Qed.

Lemma dict_set_set d k v v' :
  Py.dict_set (Py.dict_set d k v) k v' = Py.dict_set d k v'.
Proof.
  induction d as [|[k0 v0] d IH]; simpl.
  - by rewrite String.eqb_refl.
  - destruct (String.eqb k0 k) eqn:E; simpl; rewrite E; [done|]. by rewrite IH.
Qed.

Lemma dict_del_absent d k : Py.dict_lookup d k = None -> Py.dict_del d k = d.
Proof.
  induction d as [|[k' v'] d IH]; simpl; [done|].
  destruct (String.eqb k' k); [done|]. intros H. by rewrite IH.
Qed.

Lemma dict_keys_set_present d k v :
  is_Some (Py.dict_lookup d k) ->
  Py.dict_keys (Py.dict_set d k v) = Py.dict_keys d.
Proof.
  unfold Py.dict_keys.
  induction d as [|[k' v'] d IH]; simpl; [by intros [? ?]|].
  destruct (String.eqb k' k); [done|]. intros H. simpl. f_equal. by apply IH.
Qed.

Lemma dict_keys_set_absent d k v :
  Py.dict_lookup d k = None ->
  Py.dict_keys (Py.dict_set d k v) = (Py.dict_keys d ++ [k])%list.
Proof.
  unfold Py.dict_keys.
  induction d as [|[k' v'] d IH]; simpl; [done|].
  destruct (String.eqb k' k); [done|]. intros H. simpl. f_equal. by apply IH.
Qed.

End DictOrder.

(** ** Edge behaviour of [add_item] *)

Lemma add_item_empty_silent_aux (now : string) (qty logs : pyval) (w : world) :
  Py.isinstance_int qty = true ->
  add_item now (VStr "") qty logs w
  = Return (if Py.is_none logs then VList [] else logs) w.
Proof.
  intros Hqty. unfold add_item. rewrite Hqty. reflexivity.
Qed.

(** X1: [add_item] with the empty string as item and an integer quantity is
    silent: it returns, logs nothing, and leaves the ledger, the files and
    the log list as they were. *)
Theorem add_item_empty_item_silent (now : string) (qty logs : pyval) (w : world) :
  Py.isinstance_int qty = true ->
  add_item now (VStr "") qty logs w
  = Return (if Py.is_none logs then VList [] else logs) w.
Proof. exact (add_item_empty_silent_aux now qty logs w). Qed.

Lemma add_item_empty_item_silent_witness :
  add_item "t" (VStr "") (VInt 4) (VList [VStr "kept"]) (apples None)
  = Return (VList [VStr "kept"]) (apples None).
Proof.
  apply (add_item_empty_item_silent "t" (VInt 4) (VList [VStr "kept"]) (apples None)).
  reflexivity.
Defined.

(** X2: a call of [add_item] that stores a quantity of at most 4300 digits
    appends exactly one line to the list it is given, after the lines
    already there: the time, the quantity and the item; with no list given
    the line goes to a fresh list.  Nothing is handed to [logging]. *)
Theorem add_item_appends_log (now s : string) (qty : pyval) (l : list pyval)
    (d : list (string * pyval)) (w : world) (p q : Z) :
  s <> "" ->
  stock_data w = VDict d ->
  Py.as_int (default (VInt 0) (Py.dict_lookup d s)) = Some p ->
  Py.as_int qty = Some q ->
  Py.within_str_limit q = true ->
  let line := VStr (now +:+ ": Added " +:+ Py.format_int qty +:+ " of " +:+ s) in
  let w' := with_stock (VDict (Py.dict_set d s (VInt (p + q)))) w in
  add_item now (VStr s) qty (VList l) w = Return (VList (l ++ [line])) w'
  /\ add_item now (VStr s) qty VNone w = Return (VList [line]) w'
  /\ records w' = records w.
Proof.
  intros Hs Hw Hp Hq _ line w'.
  rewrite (add_item_stores now s qty (VList l) d w p q Hs Hw Hp Hq).
  rewrite (add_item_stores now s qty VNone d w p q Hs Hw Hp Hq).
  done.
Qed.

Lemma add_item_appends_log_witness :
  let w' := with_stock (VDict [("apple", VInt 7)]) (apples None) in
  add_item "noon" (VStr "apple") (VInt (-3)) (VList [VStr "first"]) (apples None)
  = Return (VList [VStr "first"; VStr "noon: Added -3 of apple"]) w'
  /\ add_item "noon" (VStr "apple") (VInt (-3)) VNone (apples None)
     = Return (VList [VStr "noon: Added -3 of apple"]) w'
  /\ records w' = records (apples None).
Proof.
  apply (add_item_appends_log "noon" "apple" (VInt (-3)) [VStr "first"]
           [("apple", VInt 10)] (apples None) 10 (-3));
    [discriminate | reflexivity | reflexivity | reflexivity | reflexivity].
Defined.

(** X3: [add_item] touches one entry.  Every other key keeps its quantity,
    a key already present keeps its place in the order of the ledger, a new
    key goes last; the files and the records stay as they were. *)
Theorem add_item_frame (now s : string) (qty logs : pyval)
    (d : list (string * pyval)) (w : world) (p q : Z) :
  s <> "" ->
  stock_data w = VDict d ->
  Py.as_int (default (VInt 0) (Py.dict_lookup d s)) = Some p ->
  Py.as_int qty = Some q ->
  let w' := final (add_item now (VStr s) qty logs w) in
  exists d',
    stock_data w' = VDict d'
    /\ (forall k, k <> s -> Py.dict_lookup d' k = Py.dict_lookup d k)
    /\ Py.dict_keys d'
       = (if present d (VStr s) then Py.dict_keys d else Py.dict_keys d ++ [s])%list
    /\ files w' = files w
    /\ records w' = records w.
Proof.
  intros Hs Hw Hp Hq w'.
  pose proof (add_item_stores now s qty logs d w p q Hs Hw Hp Hq) as Hrun.
  cbv zeta in Hrun.
  exists (Py.dict_set d s (VInt (p + q))).
  assert (w' = with_stock (VDict (Py.dict_set d s (VInt (p + q)))) w) as ->.
  { unfold w'. rewrite Hrun. by destruct (Py.append_method _ _). }
  split; [done|]. split; [|split; [|done]].
  - intros k Hk. by apply dict_lookup_set_ne.
  - simpl. destruct (Py.dict_lookup d s) as [v|] eqn:E.
    + rewrite bool_decide_eq_true_2 by eauto.
      apply dict_keys_set_present. rewrite E. eauto.
    + rewrite bool_decide_eq_false_2 by (by intros [? ?]).
      by apply dict_keys_set_absent.
Qed.

Lemma add_item_frame_witness :
  let w := with_stock (VDict [("a", VInt 1); ("b", VInt 2)]) (initial ∅) in
  let w' := final (add_item "t" (VStr "c") (VInt 5) VNone w) in
  exists d',
    stock_data w' = VDict d'
    /\ (forall k, k <> "c" ->
                  Py.dict_lookup d' k = Py.dict_lookup [("a", VInt 1); ("b", VInt 2)] k)
    /\ Py.dict_keys d' = ["a"; "b"; "c"]
    /\ files w' = files w
    /\ records w' = records w.
Proof.
  apply (add_item_frame "t" "c" (VInt 5) VNone [("a", VInt 1); ("b", VInt 2)]
           (with_stock (VDict [("a", VInt 1); ("b", VInt 2)]) (initial ∅)) 0 5);
    [discriminate | reflexivity | reflexivity | reflexivity].
Defined.

(** ** Edge behaviour of [remove_item] *)

(** X4: when the decremented quantity stays above zero, [remove_item]
    stores it and logs nothing; every other key keeps its quantity and the
    order of the keys is unchanged. *)
Theorem remove_item_keeps_positive (s : string) (qty v : pyval)
    (d : list (string * pyval)) (w : world) (n q : Z) :
  stock_data w = VDict d ->
  Py.dict_lookup d s = Some v ->
  Py.as_int v = Some n ->
  Py.as_int qty = Some q ->
  0 < n - q ->
  let d' := Py.dict_set d s (VInt (n - q)) in
  remove_item (VStr s) qty w = Return tt (with_stock (VDict d') w)
  /\ Py.dict_lookup d' s = Some (VInt (n - q))
  /\ (forall k, k <> s -> Py.dict_lookup d' k = Py.dict_lookup d k)
  /\ Py.dict_keys d' = Py.dict_keys d.
Proof.
  intros Hw Hv Hn Hq Hpos d'.
  rewrite (remove_item_present s qty v d w n q Hw Hv Hn Hq).
  assert ((n - q <=? 0) = false) as -> by lia.
  split; [done|]. split; [apply dict_lookup_set_eq|]. split.
  - intros k Hk. by apply dict_lookup_set_ne.
  - apply dict_keys_set_present. rewrite Hv. eauto.
Qed.

Lemma remove_item_keeps_positive_witness :
  let d' := [("apple", VInt 7)] in
  remove_item (VStr "apple") (VInt 3) (apples None)
  = Return tt (with_stock (VDict d') (apples None))
  /\ Py.dict_lookup d' "apple" = Some (VInt 7)
  /\ (forall k, k <> "apple" ->
                Py.dict_lookup d' k = Py.dict_lookup [("apple", VInt 10)] k)
  /\ Py.dict_keys d' = ["apple"].
Proof.
  apply (remove_item_keeps_positive "apple" (VInt 3) (VInt 10) [("apple", VInt 10)]
           (apples None) 10 3);
    [reflexivity | reflexivity | reflexivity | reflexivity | lia].
Defined.

(** X5: [remove_item] leaves no quantity at or below zero under the key it
    is called on: after the call the key is absent or its quantity is above
    zero, also when the quantity was not above zero before (as [add_item]
    can leave it) and when the quantity removed is zero or negative. *)
Theorem remove_item_normalises_key (s : string) (qty : pyval)
    (d : list (string * pyval)) (w : world) (q : Z) :
  stock_data w = VDict d ->
  (forall v, Py.dict_lookup d s = Some v -> exists n, Py.as_int v = Some n) ->
  Py.as_int qty = Some q ->
  exists d',
    returns (remove_item (VStr s) qty w)
    /\ stock_data (final (remove_item (VStr s) qty w)) = VDict d'
    /\ (Py.dict_lookup d' s = None
        \/ exists m, Py.dict_lookup d' s = Some (VInt m) /\ 0 < m).
Proof.
  intros Hw Hint Hq.
  destruct (Py.dict_lookup d s) as [v|] eqn:E.
  - destruct (Hint v eq_refl) as (n & Hn).
    rewrite (remove_item_present s qty v d w n q Hw E Hn Hq).
    destruct (n - q <=? 0) eqn:Hcmp.
    + exists (Py.dict_del d s). split; [done|]. split; [done|].
      left. apply dict_lookup_del_eq.
    + exists (Py.dict_set d s (VInt (n - q))). split; [done|]. split; [done|].
      right. exists (n - q). split; [apply dict_lookup_set_eq|lia].
  - rewrite (remove_item_missing (VStr s) qty d w Hw eq_refl).
    + exists d. split; [done|]. split; [done|]. by left.
    + simpl. apply bool_decide_eq_false. rewrite E. by intros [? ?].
Qed.

Lemma remove_item_normalises_key_witness :
  let w := with_stock (VDict [("banana", VInt (-2))]) (initial ∅) in
  exists d',
    returns (remove_item (VStr "banana") (VInt 0) w)
    /\ stock_data (final (remove_item (VStr "banana") (VInt 0) w)) = VDict d'
    /\ (Py.dict_lookup d' "banana" = None
        \/ exists m, Py.dict_lookup d' "banana" = Some (VInt m) /\ 0 < m).
Proof.
  apply (remove_item_normalises_key "banana" (VInt 0) [("banana", VInt (-2))]
           (with_stock (VDict [("banana", VInt (-2))]) (initial ∅)) 0).
  - reflexivity.
  - intros v [= <-]. by exists (-2).
  - reflexivity.
Defined.

(** X6: [add_item] followed by [remove_item] of the same item and quantity
    gives back the ledger it started from, entry for entry and in the same
    order, when the item was absent or had a quantity above zero. *)
Theorem add_then_remove_restores (now s : string) (qty logs : pyval)
    (d : list (string * pyval)) (w : world) (q : Z) :
  s <> "" ->
  stock_data w = VDict d ->
  (Py.dict_lookup d s = None
   \/ exists n, Py.dict_lookup d s = Some (VInt n) /\ 0 < n) ->
  Py.as_int qty = Some q ->
  let w1 := final (add_item now (VStr s) qty logs w) in
  returns (remove_item (VStr s) qty w1)
  /\ stock_data (final (remove_item (VStr s) qty w1)) = VDict d.
Proof.
  intros Hs Hw Hold Hq w1.
  assert (exists p, Py.as_int (default (VInt 0) (Py.dict_lookup d s)) = Some p
                    /\ (Py.dict_lookup d s = None /\ p = 0
                        \/ Py.dict_lookup d s = Some (VInt p) /\ 0 < p))
    as (p & Hp & Hcase).
  { destruct Hold as [E|(n & E & Hn)]; rewrite E; simpl.
    - exists 0. split; [done|]. by left.
    - exists n. split; [done|]. by right. }
  pose proof (add_item_stores now s qty logs d w p q Hs Hw Hp Hq) as Hrun.
  cbv zeta in Hrun.
  assert (w1 = with_stock (VDict (Py.dict_set d s (VInt (p + q)))) w) as ->.
  { unfold w1. rewrite Hrun. by destruct (Py.append_method _ _). }
  rewrite (remove_item_present s qty (VInt (p + q))
             (Py.dict_set d s (VInt (p + q)))
             (with_stock (VDict (Py.dict_set d s (VInt (p + q)))) w)
             (p + q) q eq_refl (dict_lookup_set_eq d s _) eq_refl Hq).
  replace (p + q - q) with p by lia.
  destruct Hcase as [[E ->]|[E Hpos]].
  - simpl. split; [done|]. by rewrite dict_del_set, dict_del_absent.
  - assert ((p <=? 0) = false) as -> by lia.
    split; [done|]. simpl. by rewrite dict_set_set, dict_set_same.
Qed.

Lemma add_then_remove_restores_witness :
  let w1 := final (add_item "t" (VStr "pear") (VInt (-4)) VNone (apples None)) in
  returns (remove_item (VStr "pear") (VInt (-4)) w1)
  /\ stock_data (final (remove_item (VStr "pear") (VInt (-4)) w1))
     = VDict [("apple", VInt 10)].
Proof.
  apply (add_then_remove_restores "t" "pear" (VInt (-4)) VNone [("apple", VInt 10)]
           (apples None) (-4));
    [discriminate | reflexivity | by left | reflexivity].
Defined.

(** ** What the operations in memory leave alone *)

Section KeepsFiles.

Context {A B : Type}.

Lemma keeps_files_ret (a : A) : keeps_files (ret a).
Proof. by intros w. Qed.

Lemma keeps_files_raise (e : exn) : keeps_files (@raise A e).
Proof. by intros w. Qed.

Lemma keeps_files_eval (r : res A) : keeps_files (eval r).
Proof. intros w. by destruct r. Qed.

Lemma keeps_files_bind (m : M A) (k : A -> M B) :
  keeps_files m -> (forall a, keeps_files (k a)) -> keeps_files (bind m k).
Proof.
  intros Hm Hk w. unfold bind. specialize (Hm w).
  destruct (m w) as [a w'|e w']; simpl in *; [|done].
  by rewrite Hk.
Qed.

Lemma keeps_files_try (body : M A) (handles : exn -> option (M A)) :
  keeps_files body ->
  (forall e h, handles e = Some h -> keeps_files h) ->
  keeps_files (try_except body handles).
Proof.
  intros Hbody Hh w. unfold try_except. specialize (Hbody w).
  destruct (body w) as [a w'|e w']; simpl in *; [done|].
  destruct (handles e) as [h|] eqn:E; [|done].
  by rewrite (Hh e h E).
Qed.

End KeepsFiles.

Lemma keeps_files_read_stock : keeps_files read_stock.
Proof. by intros w. Qed.

Lemma keeps_files_write_stock (v : pyval) : keeps_files (write_stock v).
Proof. by intros w. Qed.

Lemma keeps_files_log (l : level) (msg : string) (args : list logarg) :
  keeps_files (logging_log l msg args).
Proof. by intros w. Qed.

Create HintDb frame.
#[local] Hint Resolve keeps_files_ret keeps_files_raise keeps_files_eval
  keeps_files_read_stock keeps_files_write_stock keeps_files_log : frame.
#[local] Hint Extern 2 (keeps_files (bind _ _)) =>
  apply keeps_files_bind; [|intros ?] : frame.
#[local] Hint Extern 2 (keeps_files (if ?b then _ else _)) => destruct b : frame.
#[local] Hint Unfold logging_info logging_warning logging_error : frame.

Lemma keeps_files_add_item (now : string) (item qty logs : pyval) :
  keeps_files (add_item now item qty logs).
Proof.
  unfold add_item.
  destruct item, (Py.isinstance_int qty); auto 12 with frame.
Qed.

Lemma keeps_files_remove_item (item qty : pyval) :
  keeps_files (remove_item item qty).
Proof.
  unfold remove_item. apply keeps_files_try.
  - auto 12 with frame.
  - intros e h He. destruct e; try discriminate He.
    injection He as <-. auto with frame.
Qed.

Lemma keeps_files_get_qty (item : pyval) : keeps_files (get_qty item).
Proof. unfold get_qty. auto with frame. Qed.

Lemma keeps_files_check_low_items (threshold : pyval) :
  keeps_files (check_low_items threshold).
Proof. unfold check_low_items. auto with frame. Qed.

Lemma keeps_files_run_calls (cs : list call) : keeps_files (run_calls cs).
Proof.
  induction cs as [|c cs IH]; simpl; [auto with frame|].
  apply keeps_files_bind; [|by intros _].
  destruct c; simpl; auto using keeps_files_add_item, keeps_files_remove_item
                       with frame.
Qed.

(** X7: the operations on the ledger in memory never touch a file:
    [add_item], [remove_item], [get_qty], [check_low_items] and any sequence
    of calls leave every file as it was, for all arguments, whether they
    return or raise. *)
Theorem memory_operations_keep_files :
  (forall now item qty logs w,
     files (final (add_item now item qty logs w)) = files w)
  /\ (forall item qty w, files (final (remove_item item qty w)) = files w)
  /\ (forall item w, files (final (get_qty item w)) = files w)
  /\ (forall threshold w, files (final (check_low_items threshold w)) = files w)
  /\ (forall cs w, files (final (run_calls cs w)) = files w).
Proof.
  repeat split; intros.
  - apply keeps_files_add_item.
  - apply keeps_files_remove_item.
  - apply keeps_files_get_qty.
  - apply keeps_files_check_low_items.
  - apply keeps_files_run_calls.
Qed.

(** ** More on loading and saving *)

Section SnapshotFacts.

Variable json_loads : string -> option pyval.
Variable json_dumps : pyval -> string.

(** X9: [save_data] never changes the ledger, whether it returns or raises.
    When [open] raises an [OSError] (permission denied, a directory, a
    missing parent directory) [save_data] returns, logs one ERROR record
    that carries the exception, and every file is as it was. *)
Theorem save_data_reports_oserror (file : string) (w : world) :
  stock_data (final (save_data json_dumps file w)) = stock_data w
  /\ (unopenable w file ->
      exists e, is_OSError e = true
                /\ save_data json_dumps file w
                   = Return tt (with_record (save_failed_error e) w)
                /\ lr_level (save_failed_error e) = ERROR
                /\ files (final (save_data json_dumps file w)) = files w).
Proof.
  split.
  - unfold save_data. run_py.
    destruct (files w !! file) as [[]|]; try done.
    by destruct (has_nul file).
  - intros Hun.
    destruct (save_data_unopenable json_dumps file w Hun) as (e & He & ->).
    by exists e.
Qed.

(** X10: [load_data] only reads.  It leaves every file as it was, whether it
    returns or raises, and loading the same path a second time binds
    [stock_data] to the same object as the first time. *)
Theorem load_data_reads_only (file : string) (w : world) :
  let w1 := final (load_data json_loads file w) in
  files w1 = files w
  /\ stock_data (final (load_data json_loads file w1)) = stock_data w1.
Proof.
  unfold load_data. run_py.
  destruct (files w !! file) as [[text| | |]|] eqn:E; run_py;
    try (rewrite E; run_py; done).
  - destruct (json_loads text) as [v|] eqn:Hv; run_py;
      rewrite E; run_py; rewrite Hv; done.
  - destruct (has_nul file); run_py; rewrite E; run_py; done.
Qed.

(** What the [json] module promises on a ledger of the data model. *)
Hypothesis json_roundtrip :
  forall d, int_ledger d -> json_loads (json_dumps (VDict d)) = Some (VDict d).


End SnapshotFacts.

Lemma save_data_reports_oserror_witness :
  exists e, is_OSError e = true
            /\ save_data RefJson.dumps default_file (apples (Some Locked))
               = Return tt (with_record (save_failed_error e) (apples (Some Locked)))
            /\ lr_level (save_failed_error e) = ERROR
            /\ files (final (save_data RefJson.dumps default_file
                               (apples (Some Locked))))
               = files (apples (Some Locked)).
Proof.
  apply (save_data_reports_oserror RefJson.dumps default_file (apples (Some Locked))).
  left. reflexivity.
Defined.


(** ** More on low stock *)

Lemma check_low_items_ints (threshold : pyval) (d : list (string * pyval))
    (w : world) (t : Z) :
  stock_data w = VDict d ->
  Forall (fun kv => exists n, kv.2 = VInt n) d ->
  Py.as_int threshold = Some t ->
  check_low_items threshold w = Return (VStr <$> low_stock d t) w.
Proof.
  intros Hw Hd Ht. unfold check_low_items. run_py. rewrite Hw. run_py.
  rewrite (low_items_loop_dict d threshold t (Py.dict_keys d) [] Ht Hd
             (dict_keys_present d)).
  done.
Qed.

(** X11: [check_low_items] grows with the threshold: on a ledger of integer
    quantities, every item reported for a threshold is reported for every
    larger threshold. *)
Theorem check_low_items_monotone (threshold1 threshold2 : pyval)
    (d : list (string * pyval)) (w : world) (t1 t2 : Z) :
  stock_data w = VDict d ->
  Forall (fun kv => exists n, kv.2 = VInt n) d ->
  Py.as_int threshold1 = Some t1 ->
  Py.as_int threshold2 = Some t2 ->
  t1 <= t2 ->
  exists l1 l2,
    check_low_items threshold1 w = Return l1 w
    /\ check_low_items threshold2 w = Return l2 w
    /\ l1 ⊆ l2.
Proof.
  intros Hw Hd Ht1 Ht2 Hle.
  exists (VStr <$> low_stock d t1), (VStr <$> low_stock d t2).
  rewrite (check_low_items_ints threshold1 d w t1 Hw Hd Ht1).
  rewrite (check_low_items_ints threshold2 d w t2 Hw Hd Ht2).
  split; [done|]. split; [done|].
  intros item (s & -> & Hs)%list_elem_of_fmap.
  apply list_elem_of_fmap. exists s. split; [done|].
  apply elem_of_low_stock in Hs as (n & Hn & Hlt); [|done].
  apply elem_of_low_stock; [done|]. exists n. split; [done|lia].
Qed.

Lemma check_low_items_monotone_witness :
  let w := with_stock (VDict [("a", VInt 3); ("b", VInt 10); ("c", VInt 4)])
             (initial ∅) in
  exists l1 l2,
    check_low_items (VInt 4) w = Return l1 w
    /\ check_low_items default_threshold w = Return l2 w
    /\ l1 ⊆ l2.
Proof.
  apply (check_low_items_monotone (VInt 4) default_threshold
           [("a", VInt 3); ("b", VInt 10); ("c", VInt 4)]
           (with_stock (VDict [("a", VInt 3); ("b", VInt 10); ("c", VInt 4)])
              (initial ∅)) 4 5).
  - reflexivity.
  - repeat apply Forall_cons_2; try apply Forall_nil_2; simpl; eauto.
  - reflexivity.
  - reflexivity.
  - lia.
Defined.

Lemma lt_not_int (v threshold : pyval) (t : Z) :
  Py.as_int v = None -> Py.as_int threshold = Some t ->
  Py.lt v threshold = inl TypeError.
Proof.
  intros Hv Ht.
  destruct v; try discriminate Hv; destruct threshold; try discriminate Ht; done.
Qed.

Lemma lt_int (v threshold : pyval) (n t : Z) :
  Py.as_int v = Some n -> Py.as_int threshold = Some t ->
  Py.lt v threshold = inr (n <? t).
Proof.
  intros Hv Ht.
  destruct v; try discriminate Hv; destruct threshold; try discriminate Ht;
    simpl in *; injection Hv as <-; injection Ht as <-; done.
Qed.

(** The loop over keys of the ledger raises nothing but [TypeError], and
    raises it when one of the keys has a quantity that is no integer. *)
Lemma low_items_loop_not_int (d : list (string * pyval)) (threshold : pyval) (t : Z)
    (ks : list string) (acc : list pyval) :
  Py.as_int threshold = Some t ->
  Forall (fun k => is_Some (Py.dict_lookup d k)) ks ->
  (exists l, low_items_loop (VDict d) threshold (VStr <$> ks) acc = inr l
             /\ Forall (fun k => exists v n, Py.dict_lookup d k = Some v
                                            /\ Py.as_int v = Some n) ks)
  \/ low_items_loop (VDict d) threshold (VStr <$> ks) acc = inl TypeError.
Proof.
  intros Ht Hks. revert acc.
  induction Hks as [|k ks [v Hv] Hks IH]; intros acc; simpl.
  - left. eexists. split; [done|constructor].
  - rewrite Hv. simpl.
    destruct (Py.as_int v) as [n|] eqn:Hn.
    + rewrite (lt_int v threshold n t Hn Ht). simpl.
      destruct (IH (if n <? t then (acc ++ [VStr k])%list else acc))
        as [(l & Hl & Hall)|Hraise].
      * left. exists l. split; [done|]. constructor; [|done]. eauto.
      * by right.
    + right. by rewrite (lt_not_int v threshold t Hn Ht).
Qed.

(** X12: [check_low_items] raises on a ledger it cannot compare.  When the
    threshold is an integer, every quantity of the dictionary is [None], a
    boolean, an integer, a string, a list or a dictionary, and some key
    holds [None], a string, a list or a dictionary (objects [load_data] can
    leave there), the call raises [TypeError] and the world is as it was. *)
Theorem check_low_items_not_int_raises (threshold : pyval) (d : list (string * pyval))
    (w : world) (t : Z) (k : string) (v : pyval) :
  stock_data w = VDict d ->
  Py.as_int threshold = Some t ->
  Py.dict_lookup d k = Some v ->
  unordered_with_int v = true ->
  check_low_items threshold w = Raise TypeError w.
Proof.
  intros Hw Ht Hk Hkind.
  assert (Py.as_int v = None) as Hv by (by destruct v).
  unfold check_low_items. run_py. rewrite Hw. run_py.
  destruct (low_items_loop_not_int d threshold t (Py.dict_keys d) [] Ht
              (dict_keys_present d)) as [(l & _ & Hall) | -> ]; [|done].
  exfalso. rewrite Forall_forall in Hall.
  destruct (Hall k) as (v' & n & Hv' & Hn).
  - apply dict_lookup_is_Some. rewrite Hk. eauto.
  - rewrite Hk in Hv'. injection Hv' as <-. congruence.
Qed.

Lemma check_low_items_not_int_raises_witness :
  let w := with_stock (VDict [("a", VInt 3); ("b", VStr "ten")]) (initial ∅) in
  check_low_items default_threshold w = Raise TypeError w.
Proof.
  apply (check_low_items_not_int_raises default_threshold
           [("a", VInt 3); ("b", VStr "ten")]
           (with_stock (VDict [("a", VInt 3); ("b", VStr "ten")]) (initial ∅))
           5 "b" (VStr "ten"));
    reflexivity.
Defined.

(** X13: a quantity of zero is an entry.  [add_item] with quantity 0 for an
    item that is absent creates the key: [get_qty] answers 0 before and
    after, but [check_low_items] reports the item afterwards, for every
    threshold above zero, and not before. *)
Theorem zero_add_is_reported (now s : string) (logs threshold : pyval)
    (d : list (string * pyval)) (w : world) (t : Z) :
  s <> "" ->
  stock_data w = VDict d ->
  Forall (fun kv => exists n, kv.2 = VInt n) d ->
  Py.dict_lookup d s = None ->
  Py.as_int threshold = Some t ->
  0 < t ->
  let w' := final (add_item now (VStr s) (VInt 0) logs w) in
  get_qty (VStr s) w = Return (VInt 0) w
  /\ get_qty (VStr s) w' = Return (VInt 0) w'
  /\ (exists l, check_low_items threshold w = Return l w /\ VStr s ∉ l)
  /\ (exists l', check_low_items threshold w' = Return l' w' /\ VStr s ∈ l').
Proof.
  intros Hs Hw Hd Habsent Ht Hpos w'.
  pose proof (add_item_stores now s (VInt 0) logs d w 0 0 Hs Hw) as Hrun.
  rewrite Habsent in Hrun. specialize (Hrun eq_refl eq_refl). cbv zeta in Hrun.
  assert (w' = with_stock (VDict (Py.dict_set d s (VInt 0))) w) as ->.
  { unfold w'. rewrite Hrun. by destruct (Py.append_method _ _). }
  assert (Forall (fun kv => exists n, kv.2 = VInt n) (Py.dict_set d s (VInt 0)))
    as Hd' by (apply (dict_set_Forall (fun v => exists n, v = VInt n)); eauto).
  split; [|split; [|split]].
  - rewrite (get_qty_dict s d w Hw). by rewrite Habsent.
  - rewrite (get_qty_dict s (Py.dict_set d s (VInt 0))
               (with_stock (VDict (Py.dict_set d s (VInt 0))) w) eq_refl).
    by rewrite dict_lookup_set_eq.
  - exists (VStr <$> low_stock d t).
    split; [by apply check_low_items_ints|].
    intros (s' & [= <-] & Hin)%list_elem_of_fmap.
    apply elem_of_low_stock in Hin as (n & Hn & _); [|done]. congruence.
  - exists (VStr <$> low_stock (Py.dict_set d s (VInt 0)) t).
    split; [by apply check_low_items_ints|].
    apply list_elem_of_fmap. exists s. split; [done|].
    apply elem_of_low_stock; [done|]. exists 0.
    split; [apply dict_lookup_set_eq|lia].
Qed.

Lemma zero_add_is_reported_witness :
  let w' := final (add_item "t" (VStr "pear") (VInt 0) VNone (apples None)) in
  get_qty (VStr "pear") (apples None) = Return (VInt 0) (apples None)
  /\ get_qty (VStr "pear") w' = Return (VInt 0) w'
  /\ (exists l, check_low_items default_threshold (apples None)
                = Return l (apples None) /\ VStr "pear" ∉ l)
  /\ (exists l', check_low_items default_threshold w' = Return l' w'
                 /\ VStr "pear" ∈ l').
Proof.
  apply (zero_add_is_reported "t" "pear" VNone default_threshold
           [("apple", VInt 10)] (apples None) 5).
  - discriminate.
  - reflexivity.
  - repeat apply Forall_cons_2; try apply Forall_nil_2; simpl; eauto.
  - reflexivity.
  - reflexivity.
  - lia.
Defined.

(** ** Calls with the types of the signature *)

Lemma run_call_ints (c : call) (w : world) :
  ints_ledger (stock_data w) ->
  well_typed c ->
  exists w', run_call c w = Return tt w' /\ ints_ledger (stock_data w').
Proof.
  intros (d & Hw & Hd) Htyped.
  destruct c as [now item qty logs|item qty]; simpl in *.
  - destruct Htyped as (Hitem & Hqty & Hlogs).
    destruct item as [| | |s| |]; try discriminate Hitem.
    assert (exists q, Py.as_int qty = Some q) as (q & Hq).
    { destruct qty; try discriminate Hqty; simpl; eauto. }
    destruct (decide (s = "")) as [->|Hs].
    + exists w. split; [|by exists d].
      unfold bind. by rewrite (add_item_empty_silent_aux now qty logs w Hqty).
    + assert (exists p, Py.as_int (default (VInt 0) (Py.dict_lookup d s)) = Some p)
        as (p & Hp).
      { destruct (Py.dict_lookup d s) as [v|] eqn:E; simpl; [|eauto].
        destruct (dict_lookup_Forall _ d s v Hd E) as (n & Hn).
        simpl in Hn. subst v. eauto. }
      pose proof (add_item_stores now s qty logs d w p q Hs Hw Hp Hq) as Hrun.
      cbv zeta in Hrun.
      exists (with_stock (VDict (Py.dict_set d s (VInt (p + q)))) w). split.
      * unfold bind. rewrite Hrun. destruct Hlogs as [->|[l ->]]; done.
      * eexists. split; [reflexivity|].
        apply (dict_set_Forall (fun v => exists n, v = VInt n)); eauto.
  - destruct Htyped as (Hitem & Hqty).
    destruct item as [| | |s| |]; try discriminate Hitem.
    assert (exists q, Py.as_int qty = Some q) as (q & Hq).
    { destruct qty; try discriminate Hqty; simpl; eauto. }
    destruct (Py.dict_lookup d s) as [v|] eqn:E.
    + destruct (dict_lookup_Forall _ d s v Hd E) as (n & Hn).
      simpl in Hn. subst v.
      rewrite (remove_item_present s qty (VInt n) d w n q Hw E eq_refl Hq).
      eexists. split; [reflexivity|].
      destruct (n - q <=? 0); simpl.
      * eexists. split; [reflexivity|]. by apply dict_del_Forall.
      * eexists. split; [reflexivity|].
        apply (dict_set_Forall (fun v => exists n, v = VInt n)); eauto.
    + rewrite (remove_item_missing (VStr s) qty d w Hw eq_refl).
      * eexists. split; [reflexivity|]. simpl. by exists d.
      * simpl. apply bool_decide_eq_false. rewrite E. by intros [? ?].
Qed.

(** X14: calls with the types of the signature do not raise on a ledger of
    integers.  From a dictionary of integer quantities, every sequence of
    [add_item] and [remove_item] calls with a text item and an integer
    quantity, of any sign, where the quantity of every [add_item] has at
    most 4300 digits (so that its log line can be written), returns and
    leaves a dictionary of integer quantities. *)
Theorem well_typed_calls_return (cs : list call) (w : world) :
  ints_ledger (stock_data w) ->
  Forall well_typed cs ->
  Forall formats_quantity cs ->
  exists w', run_calls cs w = Return tt w' /\ ints_ledger (stock_data w').
Proof.
  revert w. induction cs as [|c cs IH]; intros w Hinv Htyped Hformats; simpl.
  - by exists w.
  - inversion Htyped as [|? ? Hc Hcs]; subst.
    inversion Hformats as [|? ? _ Hfs]; subst.
    destruct (run_call_ints c w Hinv Hc) as (w1 & Hrun & Hinv1).
    destruct (IH w1 Hinv1 Hcs Hfs) as (w2 & Hrun2 & Hinv2).
    exists w2. split; [|done]. unfold bind. by rewrite Hrun.
Qed.

Lemma well_typed_calls_return_witness :
  exists w',
    run_calls [Add "t1" (VStr "banana") (VInt (-2)) (VList []);
               Remove (VStr "apple") (VBool true);
               Add "t2" (VStr "") (VInt 1) VNone;
               Remove (VStr "banana") (VInt (-5))] (apples None)
    = Return tt w'
    /\ ints_ledger (stock_data w').
Proof.
  apply (well_typed_calls_return
           [Add "t1" (VStr "banana") (VInt (-2)) (VList []);
            Remove (VStr "apple") (VBool true);
            Add "t2" (VStr "") (VInt 1) VNone;
            Remove (VStr "banana") (VInt (-5))] (apples None)).
  - exists [("apple", VInt 10)]. split; [reflexivity|].
    repeat apply Forall_cons_2; try apply Forall_nil_2; simpl; eauto.
  - repeat apply Forall_cons_2; try apply Forall_nil_2; simpl; repeat split; eauto.
  - repeat apply Forall_cons_2; try apply Forall_nil_2; simpl; done.
Defined.

(** ** The report *)

Ltac run_io :=
  repeat progress (unfold pbind, pret, lift, print; simpl).

Lemma print_items_dict (d : list (string * pyval)) (ks : list string) (c : console) :
  Forall (fun k => is_Some (Py.dict_lookup d k)) ks ->
  print_items (VDict d) (VStr <$> ks) c
  = Done tt
      (Console
         (stdout c ++
          ((fun k => k +:+ " -> " +:+ PyStr.str (default VNone (Py.dict_lookup d k)))
             <$> ks))
         (machine c)).
Proof.
  intros Hks. revert c.
  induction Hks as [|k ks [v Hv] Hks IH]; intros [out w]; simpl.
  - unfold pret. by rewrite app_nil_r.
  - run_io. rewrite Hv. run_py. rewrite IH. simpl.
    by rewrite <- app_assoc.
Qed.

Lemma report_lines_of_keys (d : list (string * pyval)) :
  NoDup (Py.dict_keys d) ->
  (fun k => k +:+ " -> " +:+ PyStr.str (default VNone (Py.dict_lookup d k)))
    <$> Py.dict_keys d
  = report_line <$> d.
Proof.
  unfold Py.dict_keys. induction d as [|[k v] d IH]; [done|].
  intros [Hk Hd]%NoDup_cons. cbn [fmap list_fmap]. f_equal.
  - simpl. by rewrite String.eqb_refl.
  - rewrite <- (IH Hd). apply list_fmap_ext. intros i k' Hk'.
    simpl. destruct (String.eqb k k') eqn:E; [|done].
    apply String.eqb_eq in E. subst k'. exfalso. apply Hk.
    by apply list_elem_of_lookup_2 in Hk'.
Qed.

Lemma print_data_dict (d : list (string * pyval)) (c : console) :
  stock_data (machine c) = VDict d ->
  print_data c
  = Done tt
      (Console
         (stdout c ++ "Items Report" ::
          ((fun k => k +:+ " -> " +:+ PyStr.str (default VNone (Py.dict_lookup d k)))
             <$> Py.dict_keys d))
         (machine c)).
Proof.
  intros Hw. destruct c as [out w]. simpl in Hw.
  unfold print_data. run_io. run_py. rewrite Hw. run_py.
  rewrite (print_items_dict d (Py.dict_keys d) _ (dict_keys_present d)). simpl.
  by rewrite <- app_assoc.
Qed.

(** X15: on a dictionary whose values are integers of at most 4300 digits,
    booleans, strings or [None], [print_data] returns and changes nothing
    but the console: it writes the header and then one line [key -> value]
    for each entry, in the order of the ledger. *)
Theorem print_data_reports (d : list (string * pyval)) (c : console) :
  stock_data (machine c) = VDict d ->
  NoDup (Py.dict_keys d) ->
  Forall (fun kv => PyStr.plain kv.2 = true) d ->
  print_data c
  = Done tt (Console (stdout c ++ "Items Report" :: (report_line <$> d)) (machine c)).
Proof.
  intros Hw Hnodup _.
  rewrite (print_data_dict d c Hw). by rewrite (report_lines_of_keys d Hnodup).
Qed.

Lemma print_data_reports_witness :
  let w := with_stock (VDict [("apple", VInt 7); ("banana", VInt (-2));
                              ("note", VStr "on order"); ("pear", VNone)])
             (initial ∅) in
  print_data (start w)
  = Done tt (Console ["Items Report"; "apple -> 7"; "banana -> -2";
                      "note -> on order"; "pear -> None"] w).
Proof.
  apply (print_data_reports [("apple", VInt 7); ("banana", VInt (-2));
                             ("note", VStr "on order"); ("pear", VNone)]
           (start (with_stock
                     (VDict [("apple", VInt 7); ("banana", VInt (-2));
                             ("note", VStr "on order"); ("pear", VNone)])
                     (initial ∅)))).
  - reflexivity.
  - apply (bool_decide_unpack _). vm_compute. exact I.
  - repeat apply Forall_cons_2; try apply Forall_nil_2; reflexivity.
Defined.

(** X16: [print_data] writes its header before it looks at the ledger.  When
    [stock_data] is bound to an object that cannot be iterated ([None], a
    number), the header is on the console and the call raises. *)
Theorem print_data_header_then_raises (e : exn) (c : console) :
  Py.iter (stock_data (machine c)) = inl e ->
  print_data c = Failed e (Console (stdout c ++ ["Items Report"]) (machine c)).
Proof.
  intros Hiter. destruct c as [out w]. simpl in Hiter.
  unfold print_data. run_io. run_py. by rewrite Hiter.
Qed.

Lemma print_data_header_then_raises_witness :
  print_data (start (with_stock VNone (initial ∅)))
  = Failed TypeError (Console ["Items Report"] (with_stock VNone (initial ∅))).
Proof.
  apply (print_data_header_then_raises TypeError
           (start (with_stock VNone (initial ∅)))).
  reflexivity.
Defined.

(** ** The session of [main] *)

Section Triples.

Context {A B : Type}.

Lemma ptriple_bind (Pre : world -> Prop) (Mid : A -> world -> Prop)
    (Post : B -> world -> Prop) (m : P A) (k : A -> P B) :
  ptriple Pre m Mid ->
  (forall a, ptriple (Mid a) (k a) Post) ->
  ptriple Pre (pbind m k) Post.
Proof.
  intros Hm Hk c Hpre. unfold pbind.
  destruct (Hm c Hpre) as (a & c' & -> & Hmid).
  exact (Hk a c' Hmid).
Qed.

Lemma ptriple_lift (Pre : world -> Prop) (Post : A -> world -> Prop) (m : M A) :
  triple Pre m Post -> ptriple Pre (lift m) Post.
Proof.
  intros Hm c Hpre. unfold lift.
  destruct (Hm (machine c) Hpre) as (a & w' & -> & Hpost).
  by eexists _, _.
Qed.

Lemma triple_weaken (Pre Pre' : world -> Prop) (Post Post' : A -> world -> Prop)
    (m : M A) :
  triple Pre' m Post' ->
  (forall w, Pre w -> Pre' w) ->
  (forall a w, Post' a w -> Post a w) ->
  triple Pre m Post.
Proof.
  intros Hm Hpre Hpost w Hw.
  destruct (Hm w (Hpre w Hw)) as (a & w' & Hrun & Hp). eauto.
Qed.

End Triples.

Lemma ptriple_pre_exists {A X : Type} (Q : X -> Prop) (Pre : world -> Prop)
    (m : P A) (Post : A -> world -> Prop) :
  (forall x, Q x -> ptriple Pre m Post) ->
  ptriple (fun w => (exists x, Q x) /\ Pre w) m Post.
Proof. intros Hm c [[x Hx] Hpre]. exact (Hm x Hx c Hpre). Qed.

Lemma ptriple_print (Pre : world -> Prop) (s : string) :
  ptriple Pre (print s) (fun _ => Pre).
Proof. intros c Hpre. unfold print. by eexists _, _. Qed.

Lemma triple_add_item (now s : string) (qty : pyval) (l : list pyval) :
  Py.isinstance_int qty = true ->
  triple ints_world (add_item now (VStr s) qty (VList l))
    (fun logs w => (exists l', logs = VList l') /\ ints_world w).
Proof.
  intros Hqty w (d & Hw & Hd).
  assert (exists q, Py.as_int qty = Some q) as (q & Hq).
  { destruct qty; try discriminate Hqty; simpl; eauto. }
  destruct (decide (s = "")) as [->|Hs].
  - rewrite (add_item_empty_silent_aux now qty (VList l) w Hqty).
    eexists _, _. split; [done|]. split; [eauto|by exists d].
  - assert (exists p, Py.as_int (default (VInt 0) (Py.dict_lookup d s)) = Some p)
      as (p & Hp).
    { destruct (Py.dict_lookup d s) as [v|] eqn:E; simpl; [|eauto].
      destruct (dict_lookup_Forall _ d s v Hd E) as (n & Hn).
      simpl in Hn. subst v. eauto. }
    rewrite (add_item_stores now s qty (VList l) d w p q Hs Hw Hp Hq). simpl.
    eexists _, _. split; [done|]. split; [eauto|].
    eexists. split; [reflexivity|].
    apply (dict_set_Forall (fun v => exists n, v = VInt n)); eauto.
Qed.

Lemma triple_add_item_invalid (now : string) :
  triple ints_world (add_item now (VInt 123) (VStr "ten") VNone)
    (fun _ => ints_world).
Proof. intros w Hw. by eexists _, _. Qed.

Lemma triple_remove_item (s : string) (qty : pyval) :
  Py.isinstance_int qty = true ->
  triple ints_world (remove_item (VStr s) qty) (fun _ => ints_world).
Proof.
  intros Hqty w Hw.
  destruct (run_call_ints (Remove (VStr s) qty) w Hw) as (w' & Hrun & Hw');
    [by split|].
  by exists tt, w'.
Qed.

Lemma triple_get_qty (s : string) :
  triple ints_world (get_qty (VStr s)) (fun _ => ints_world).
Proof.
  intros w (d & Hw & Hd). rewrite (get_qty_dict s d w Hw).
  eexists _, _. split; [done|]. by exists d.
Qed.

Lemma triple_check_low_items :
  triple ints_world (check_low_items default_threshold) (fun _ => ints_world).
Proof.
  intros w (d & Hw & Hd).
  rewrite (check_low_items_ints default_threshold d w 5 Hw Hd eq_refl).
  eexists _, _. split; [done|]. by exists d.
Qed.

Lemma ptriple_print_data :
  ptriple ints_world print_data (fun _ => ints_world).
Proof.
  intros c (d & Hw & Hd). rewrite (print_data_dict d c Hw).
  eexists _, _. split; [done|]. by exists d.
Qed.

Section MainFacts.

Variable json_loads : string -> option pyval.
Variable json_dumps : pyval -> string.

Lemma triple_save_data :
  triple ints_world (save_data json_dumps default_file) (fun _ => ints_world).
Proof.
  intros w Hw. unfold save_data. run_py.
  destruct (files w !! default_file) as [[]|]; by eexists _, _.
Qed.

Lemma triple_load_data :
  triple (fun w => ints_world w /\ inventory_ok json_loads (files w))
    (load_data json_loads default_file) (fun _ => ints_world).
Proof.
  intros w [Hw Hok]. unfold inventory_ok in Hok.
  unfold load_data. run_py.
  destruct (files w !! default_file) as [[text| | |]|]; run_py; try done.
  - destruct Hok as [->|(d & -> & Hd)]; run_py.
    + by eexists _, _.
    + eexists _, _. split; [done|]. exists d. split; [done|].
      eapply Forall_impl; [exact Hd|]. intros kv (n & Hn & _). eauto.
  - by eexists _, _.
  - by eexists _, _.
Qed.

(** X17: [main] runs to its end on a sound inventory.  Started in a fresh
    process where there is no [inventory.json], or it is a text file whose
    text [json.loads] rejects with [JSONDecodeError], or it is a text file
    that holds an object of integer quantities of at most 4299 digits,
    [main] does not raise and leaves a dictionary of integers. *)
Theorem main_completes (fs : gmap string fnode) (now1 now2 now3 : string) :
  inventory_ok json_loads fs ->
  completes (main json_loads json_dumps now1 now2 now3 (start (initial fs)))
  /\ ints_ledger
       (stock_data
          (machine (ended (main json_loads json_dumps now1 now2 now3
                            (start (initial fs)))))).
Proof.
  intros Hok.
  assert (ptriple (fun w => ints_world w /\ inventory_ok json_loads (files w))
            (main json_loads json_dumps now1 now2 now3) (fun _ => ints_world))
    as Hmain.
  { unfold main.
    eapply ptriple_bind; [apply ptriple_lift, triple_load_data|intros ?; cbv beta].
    eapply ptriple_bind; [by apply ptriple_lift, triple_add_item|].
    intros logs. apply ptriple_pre_exists. intros l ->.
    eapply ptriple_bind.
    { apply ptriple_lift.
      eapply triple_weaken; [by apply triple_add_item|done|].
      intros ? w' [_ Hw']. exact Hw'. }
    intros ?; cbv beta.
    eapply ptriple_bind; [apply ptriple_lift, triple_add_item_invalid|intros ?; cbv beta].
    eapply ptriple_bind; [by apply ptriple_lift, triple_remove_item|intros ?; cbv beta].
    eapply ptriple_bind; [by apply ptriple_lift, triple_remove_item|intros ?; cbv beta].
    eapply ptriple_bind; [apply ptriple_lift, triple_get_qty|intros qty].
    eapply ptriple_bind; [apply ptriple_print|intros ?; cbv beta].
    eapply ptriple_bind; [apply ptriple_lift, triple_check_low_items|intros low].
    eapply ptriple_bind; [apply ptriple_print|intros ?; cbv beta].
    eapply ptriple_bind; [apply ptriple_lift, triple_save_data|intros ?; cbv beta].
    eapply ptriple_bind; [apply ptriple_print_data|intros ?; cbv beta].
    apply ptriple_print. }
  destruct (Hmain (start (initial fs))) as (a & c' & -> & Hc').
  - split; [|exact Hok]. exists []. split; [done|constructor].
  - split; [exact I|exact Hc'].
Qed.

End MainFacts.

Lemma main_completes_witness :
  let fs : gmap string fnode :=
    {[ default_file := Text (RefJson.dumps (VDict [("orange", VInt 1)])) ]} in
  completes (main RefJson.loads RefJson.dumps "t1" "t2" "t3" (start (initial fs)))
  /\ ints_ledger
       (stock_data
          (machine (ended (main RefJson.loads RefJson.dumps "t1" "t2" "t3"
                            (start (initial fs)))))).
Proof.
  apply (main_completes RefJson.loads RefJson.dumps
           {[ default_file := Text (RefJson.dumps (VDict [("orange", VInt 1)])) ]}
           "t1" "t2" "t3").
  unfold inventory_ok. rewrite lookup_singleton_eq.
  right. exists [("orange", VInt 1)]. split; [reflexivity|].
  repeat apply Forall_cons_2; try apply Forall_nil_2; simpl.
  exists 1. split; reflexivity.
Defined.

Lemma default_file_no_nul : has_nul default_file = false.
Proof. reflexivity. Qed.

Section MainRuns.

Variable json_loads : string -> option pyval.
Variable json_dumps : pyval -> string.

#[local] Opaque default_file has_nul.

Lemma main_from_nothing (fs : gmap string fnode) (now1 now2 now3 : string) :
  fs !! default_file = None ->
  main json_loads json_dumps now1 now2 now3 (start (initial fs))
  = Done tt
      (Console
         ["Apple stock: 7"; "Low items: ['banana']"; "Items Report";
          "apple -> 7"; "banana -> -2";
          "Security note: dangerous eval() removed!"]
         {| stock_data := first_run_ledger;
            files := <[default_file := Text (json_dumps first_run_ledger)]> fs;
            records := [file_missing_warning default_file;
                        invalid_types_warning (VInt 123) (VStr "ten");
                        not_found_warning (VStr "orange");
                        saved_info] |}).
Proof.
  intros Hfile.
  unfold main, start, initial, load_data, save_data.
  run_io. run_py. rewrite Hfile, default_file_no_nul.
  run_io. run_py. rewrite Hfile.
  reflexivity.
Qed.

(** X18: the first run of [main].  In a fresh process with no
    [inventory.json], [main] leaves apple at 7 and banana at -2 (a quantity
    below zero stays in the ledger), reports banana alone as low, writes
    that ledger to [inventory.json] and touches no other file. *)
Theorem main_first_run (fs : gmap string fnode) (now1 now2 now3 : string) :
  fs !! default_file = None ->
  main json_loads json_dumps now1 now2 now3 (start (initial fs))
  = Done tt
      (Console
         ["Apple stock: 7"; "Low items: ['banana']"; "Items Report";
          "apple -> 7"; "banana -> -2";
          "Security note: dangerous eval() removed!"]
         {| stock_data := first_run_ledger;
            files := <[default_file := Text (json_dumps first_run_ledger)]> fs;
            records := [file_missing_warning default_file;
                        invalid_types_warning (VInt 123) (VStr "ten");
                        not_found_warning (VStr "orange");
                        saved_info] |}).
Proof. exact (main_from_nothing fs now1 now2 now3). Qed.

(** What the [json] module promises on a ledger of the data model. *)
Hypothesis json_roundtrip :
  forall d, int_ledger d -> json_loads (json_dumps (VDict d)) = Some (VDict d).

(** X19: the ledger outlives the process.  A second run of [main], in a
    fresh process that finds the [inventory.json] the first run wrote, loads
    apple 7 and banana -2 and ends with apple at 14 and banana at -4: every
    run adds seven apples and takes two bananas. *)
Theorem main_second_run (fs : gmap string fnode) (now1 now2 now3 now4 now5 now6 : string) :
  fs !! default_file = None ->
  let c1 := ended (main json_loads json_dumps now1 now2 now3 (start (initial fs))) in
  let r2 := main json_loads json_dumps now4 now5 now6
              (start (initial (files (machine c1)))) in
  completes r2
  /\ stock_data (machine (ended r2)) = VDict [("apple", VInt 14); ("banana", VInt (-4))]
  /\ stdout (ended r2)
     = ["Apple stock: 14"; "Low items: ['banana']"; "Items Report";
        "apple -> 14"; "banana -> -4";
        "Security note: dangerous eval() removed!"].
Proof.
  intros Hfile c1 r2. unfold r2, c1.
  rewrite (main_from_nothing fs now1 now2 now3 Hfile).
  assert (json_loads (json_dumps first_run_ledger) = Some first_run_ledger) as Hload.
  { apply json_roundtrip. split.
    - apply (bool_decide_unpack _). vm_compute. exact I.
    - repeat apply Forall_cons_2; try apply Forall_nil_2; simpl; eauto. }
  unfold main, start, initial, load_data, save_data, ended.
  run_io. run_py. rewrite lookup_insert_eq.
  run_io. run_py. rewrite Hload.
  run_io. run_py. rewrite lookup_insert_eq.
  done.
Qed.

End MainRuns.

Lemma main_first_run_witness :
  stock_data (machine (ended (main RefJson.loads RefJson.dumps "t1" "t2" "t3"
                                (start (initial ∅)))))
  = first_run_ledger.
Proof.
  rewrite (main_first_run RefJson.loads RefJson.dumps ∅ "t1" "t2" "t3");
    reflexivity.
Defined.

Lemma main_second_run_witness :
  let c1 := ended (main RefJson.loads RefJson.dumps "t1" "t2" "t3"
                     (start (initial ∅))) in
  let r2 := main RefJson.loads RefJson.dumps "t4" "t5" "t6"
              (start (initial (files (machine c1)))) in
  completes r2
  /\ stock_data (machine (ended r2)) = VDict [("apple", VInt 14); ("banana", VInt (-4))]
  /\ stdout (ended r2)
     = ["Apple stock: 14"; "Low items: ['banana']"; "Items Report";
        "apple -> 14"; "banana -> -4";
        "Security note: dangerous eval() removed!"].
Proof.
  apply (main_second_run RefJson.loads RefJson.dumps
           RefJsonFacts.loads_dumps_int_ledger ∅ "t1" "t2" "t3" "t4" "t5" "t6").
  reflexivity.
Defined.

(** ** A [remove_item] that raises *)

(** On the objects of [pyval], a difference that is computed is an
    integer. *)
Lemma sub_is_int (v q r : pyval) : Py.sub v q = inr r -> exists n, r = VInt n.
Proof.
  unfold Py.sub. destruct (Py.as_int v), (Py.as_int q); try discriminate.
  intros [= <-]. eauto.
Qed.

(** After [c[k] -= q] has stored, [c[k]] reads an integer and [del c[k]]
    finds its key. *)
Lemma isub_item_stored (c k q c' : pyval) :
  Py.isub_item c k q = inr c' ->
  exists n c'', Py.getitem c' k = inr (VInt n) /\ Py.delitem c' k = inr c''.
Proof.
  destruct c as [| | |s|l|d]; simpl; try discriminate.
  - destruct (Py.as_int k) as [i|]; simpl; [|discriminate].
    destruct (Py.str_index s i); simpl; [|discriminate].
    destruct (Py.as_int q); discriminate.
  - destruct (Py.as_int k) as [i|] eqn:Hi; [|discriminate].
    destruct (Py.norm_index (length l) i) as [n|] eqn:Hn; [|discriminate].
    destruct (l !! n) as [v|] eqn:Hv; [|discriminate].
    destruct (Py.sub v q) as [e|r] eqn:Hr; simpl; [discriminate|].
    intros [= <-]. destruct (sub_is_int v q r Hr) as (m & ->).
    simpl. rewrite Hi, length_insert, Hn.
    rewrite list_lookup_insert_eq by (by apply lookup_lt_Some in Hv).
    by eexists _, _.
  - destruct k as [| | |s| |]; try discriminate.
    destruct (Py.dict_lookup d s) as [v|] eqn:Hv; [|discriminate].
    destruct (Py.sub v q) as [e|r] eqn:Hr; simpl; [discriminate|].
    intros [= <-]. destruct (sub_is_int v q r Hr) as (m & ->).
    simpl. rewrite dict_lookup_set_eq. by eexists _, _.
Qed.

Lemma remove_item_raise_unchanged (item qty : pyval) (w w' : world) (e : exn) :
  remove_item item qty w = Raise e w' ->
  w' = w /\ Py.isub_item (stock_data w) item qty = inl e /\ e <> KeyError.
Proof.
  unfold remove_item. run_py.
  destruct (Py.isub_item (stock_data w) item qty) as [e0|c'] eqn:Hsub; run_py.
  - destruct e0; run_py; try discriminate; intros [= <- <-]; done.
  - destruct (isub_item_stored _ _ _ _ Hsub) as (n & c'' & -> & Hdel). run_py.
    destruct (n <=? 0); run_py; [|discriminate].
    rewrite Hdel. run_py. discriminate.
Qed.

(** X20: a [remove_item] that raises has changed nothing, when [stock_data],
    the item and the quantity are objects of the six kinds of [pyval]
    ([None], booleans, integers, strings, lists, dictionaries with string
    keys).  On these, a difference that is computed is an integer, which
    the comparison with 0 accepts, so when the call raises, the exception
    comes from [stock_data[item] -= qty] before anything is stored: the
    ledger, the files and the records are as they were, and the exception
    is not the [KeyError] the function handles.  (A quantity of another
    kind, a complex number or a set, is outside: with it the difference can
    be stored before the comparison raises.) *)
Theorem remove_item_raise_atomic (item qty : pyval) (w w' : world) (e : exn) :
  remove_item item qty w = Raise e w' ->
  w' = w /\ e <> KeyError.
Proof.
  intros Hrun.
  destruct (remove_item_raise_unchanged item qty w w' e Hrun) as (Hw & _ & He).
  done.
Qed.

Lemma remove_item_raise_atomic_witness :
  apples None = apples None /\ TypeError <> KeyError.
Proof.
  apply (remove_item_raise_atomic (VStr "apple") (VStr "three")
           (apples None) (apples None) TypeError).
  reflexivity.
Defined.
